(** * grinex-rate-service: quote derivation, persistence and health aggregation

    A shallow embedding of the decision logic of the service:

    - [internal/service/grinex.go]: [calculatePricesFromTrades],
      [GetUSDTRate], [HealthCheck];
    - [internal/database/database.go]: [SaveRate], [GetLatestRate],
      [GetRatesByTimeRange], [HealthCheck];
    - [server/server.go]: [GetRates], [Healthcheck];
    - [internal/config/config.go]: [Load] and what it calls, [GetDSN].

    Conventions.  A Go function returning [(T, error)] becomes a function
    returning a pair whose second component is an [option error] ([None]
    is the [nil] error); a [*T] that may be [nil] is an [option T].  An
    [error] is represented by the text of its [Error()] method, so that
    [fmt.Errorf("ctx: %w", err)] is string concatenation.  A [float64] is
    a [spec_float] of the binary64 format.  Calls to the logger and to the
    tracer have no influence on the returned values and are left out.

    What the Go standard library and the outside world contribute (number
    and time parsing, JSON decoding, sorting, HTTP answers, SQL answers,
    the clock) enters through type classes and explicit arguments; the
    theorems hold for every instance, and concrete instances are supplied
    for evaluation. *)

From Stdlib Require Import ZArith List String Ascii Bool Lia.
From Stdlib Require Import Permutation Sorted DecimalString.
From Stdlib Require Import Floats.SpecFloat.
Import ListNotations.

Open Scope string_scope.

(** ** Go values *)

Definition error := string.

(** [fmt.Errorf (prefix ++ "%w") err] *)
Definition Errorf_w (prefix : string) (err : error) : error := prefix ++ err.

(** A [float64] is a binary64 number in the representation of
    [SpecFloat]: a signed zero, a signed infinity, NaN, or a sign, a
    mantissa and an exponent.  On the canonical representations, which are
    all that parsing produces, [SFcompare] is the comparison of IEEE 754. *)
Definition float64 := spec_float.

(** The untyped constant [0] converted to [float64]. *)
Definition float64_zero : float64 := S754_zero false.

(** The comparison operators of Go on [float64] are those of IEEE 754. *)
Definition float64_lt (x y : float64) : bool := SFltb x y.
Definition float64_le (x y : float64) : bool := SFleb x y.
Definition float64_eq (x y : float64) : bool := SFeqb x y.
Definition float64_ge (x y : float64) : bool := SFleb y x.

(** An instant; only its position on the time line matters here
    (nanoseconds since the Unix epoch). *)
Definition Time := Z.

(** ** Package sort *)

Module sort.

(** [func isNaN(f float64) bool { return f != f }] *)
Definition isNaN (f : float64) : bool := negb (float64_eq f f).

(** [Float64Slice.Less]: [x[i] < x[j] || (isNaN(x[i]) && !isNaN(x[j]))],
    on the two elements compared. *)
Definition Float64Slice_Less (xi xj : float64) : bool :=
  float64_lt xi xj || (isNaN xi && negb (isNaN xj)).

(** [sort.Reverse]: [Less(i, j)] of the wrapper is [Less(j, i)] of the
    wrapped interface. *)
Definition Reverse {A : Type} (less : A -> A -> bool) : A -> A -> bool :=
  fun xi xj => less xj xi.

(** What [sort.Interface] asks of [Less]: an element does not sort before
    itself, and the ordering is transitive, as is its complement (if
    [Less(i, j)] and [Less(j, k)] are false, so is [Less(i, k)]). *)
Record strict_weak_order {A : Type} (less : A -> A -> bool) : Prop := {
  swo_asym : forall a b, less a b = true -> less b a = false;
  swo_negtrans : forall a b c,
      less a b = false -> less b c = false -> less a c = false
}.

(** [x] may stand before [y] in a slice sorted by [less]. *)
Definition not_after {A : Type} (less : A -> A -> bool) (x y : A) : Prop :=
  less y x = false.

(** [sort.Sort]: the slice is rearranged in place so that no element is
    [Less] than one standing before it.  The algorithm is not fixed by
    the documentation and the sort is not stable; the class records what
    every implementation guarantees. *)
Class Sorter := {
  Sort : forall {A : Type}, (A -> A -> bool) -> list A -> list A;
  Sort_Permutation :
    forall A (less : A -> A -> bool) (l : list A),
      Permutation l (Sort less l);
  Sort_StronglySorted :
    forall A (less : A -> A -> bool) (l : list A),
      strict_weak_order less ->
      StronglySorted (not_after less) (Sort less l)
}.

(** The algorithm [sort.Sort] runs on slices of at most 12 elements:
<<
    for i := a + 1; i < b; i++ {
      for j := i; j > a && data.Less(j, j-1); j-- { data.Swap(j, j-1) }
    }
>>
    [sift less x sorted] is the inner loop: [x], placed after [sorted],
    moves left while it is [Less] than its left neighbour, so it ends
    in front of the longest suffix whose elements it is all [Less]
    than. *)
Fixpoint sift {A : Type} (less : A -> A -> bool) (x : A) (sorted : list A)
  : list A :=
  match sorted with
  | [] => [x]
  | y :: rest =>
      if forallb (less x) sorted then x :: sorted
      else y :: sift less x rest
  end.

Fixpoint insertionSort_from {A : Type} (less : A -> A -> bool)
         (sorted rest : list A) : list A :=
  match rest with
  | [] => sorted
  | x :: rest' => insertionSort_from less (sift less x sorted) rest'
  end.

Definition insertionSort {A : Type} (less : A -> A -> bool) (l : list A)
  : list A :=
  insertionSort_from less [] l.

End sort.

(** ** Package strconv *)

Module strconv.

(** [strconv.ParseFloat(s, 64)]: the value and the error. *)
Class Parser := {
  ParseFloat : string -> float64 * option error
}.

Local Open Scope Z_scope.

(** *** A model of [ParseFloat] on decimal literals

    It covers what the exchange sends and what the tests use: an
    optional sign, decimal digits with an optional point, an optional
    decimal exponent, and the special values [NaN], [Inf] and
    [Infinity] in any case.  The value is the binary64 number nearest
    to the decimal one, ties to even; a value that rounds to infinity
    is a range error.  Hexadecimal literals and [_] between digits,
    which [ParseFloat] accepts as well, are outside this model, which
    answers them with a syntax error. *)

Definition ErrSyntax : error := "invalid syntax".
Definition ErrRange : error := "value out of range".

Definition prec : Z := 53.
Definition emax : Z := 1024.

(** [lower(c)]: [c | ('x' - 'X')] *)
Definition lower (c : ascii) : ascii :=
  let '(Ascii b0 b1 b2 b3 b4 b5 b6 b7) := c in
  Ascii b0 b1 b2 b3 b4 true b6 b7.

Definition code (c : ascii) : Z := Z.of_N (N_of_ascii c).

Definition is_digit (c : ascii) : bool := (48 <=? code c) && (code c <=? 57).

Definition digit_val (c : ascii) : Z := code c - 48.

Fixpoint lower_string (s : string) : string :=
  match s with
  | EmptyString => EmptyString
  | String c s' => String (lower c) (lower_string s')
  end.

(** [special]: an optional sign before [inf] or [infinity], no sign
    before [nan]. *)
Definition special (s : string) : option float64 :=
  let unsigned_inf (t : string) :=
    let t := lower_string t in
    String.eqb t "inf" || String.eqb t "infinity" in
  match s with
  | String "+" t => if unsigned_inf t then Some (S754_infinity false) else None
  | String "-" t => if unsigned_inf t then Some (S754_infinity true) else None
  | _ =>
      if unsigned_inf s then Some (S754_infinity false)
      else if String.eqb (lower_string s) "nan" then Some S754_nan
      else None
  end.

(** The digits of the mantissa: the integer they spell, the number of
    them after the point, and what follows them. *)
Fixpoint read_mantissa (s : string) (sawdot sawdigits : bool)
         (mant frac : Z) : Z * Z * bool * string :=
  match s with
  | EmptyString => (mant, frac, sawdigits, s)
  | String c s' =>
      if Ascii.eqb c "." then
        if sawdot then (mant, frac, sawdigits, s)
        else read_mantissa s' true sawdigits mant frac
      else if is_digit c then
        read_mantissa s' sawdot true (mant * 10 + digit_val c)
                      (if sawdot then frac + 1 else frac)
      else (mant, frac, sawdigits, s)
  end.

(** The digits of the exponent; as in [readFloat] they stop counting
    at 10000. *)
Fixpoint read_exponent (s : string) (e : Z) : Z * string :=
  match s with
  | EmptyString => (e, s)
  | String c s' =>
      if is_digit c then
        read_exponent s' (if e <? 10000 then e * 10 + digit_val c else e)
      else (e, s)
  end.

Definition starts_with_digit (s : string) : bool :=
  match s with
  | String c _ => is_digit c
  | EmptyString => false
  end.

(** The optional exponent part: [None] when it is malformed. *)
Definition read_exp_part (s : string) : option (Z * string) :=
  match s with
  | String c s' =>
      if Ascii.eqb (lower c) "e" then
        match s' with
        | String "+" s'' =>
            if starts_with_digit s'' then Some (read_exponent s'' 0)
            else None
        | String "-" s'' =>
            if starts_with_digit s'' then
              let '(e, r) := read_exponent s'' 0 in Some (- e, r)
            else None
        | _ =>
            if starts_with_digit s' then Some (read_exponent s' 0)
            else None
        end
      else Some (0, s)
  | EmptyString => Some (0, s)
  end.

(** The binary64 number nearest to [mant * 10 ^ exp10]. *)
Definition round_decimal (neg : bool) (mant exp10 : Z) : float64 :=
  match mant with
  | Zpos m =>
      if 0 <=? exp10 then
        binary_normalize prec emax
          (if neg then - (mant * 10 ^ exp10) else mant * 10 ^ exp10) 0 neg
      else
        SFdiv prec emax (S754_finite neg m 0)
              (S754_finite false (Z.to_pos (10 ^ (- exp10))) 0)
  | _ => S754_zero neg
  end.

Definition parse_decimal (s : string) : float64 * option error :=
  let '(neg, body) :=
    match s with
    | String "+" t => (false, t)
    | String "-" t => (true, t)
    | _ => (false, s)
    end in
  let '(mant, frac, sawdigits, rest) := read_mantissa body false false 0 0 in
  if negb sawdigits then (float64_zero, Some ErrSyntax)
  else
    match read_exp_part rest with
    | Some (e, EmptyString) =>
        match round_decimal neg mant (e - frac) with
        | S754_infinity sg => (S754_infinity sg, Some ErrRange)
        | f => (f, None)
        end
    | _ => (float64_zero, Some ErrSyntax)
    end.

Definition ParseFloat_decimal (s : string) : float64 * option error :=
  match special s with
  | Some f => (f, None)
  | None => parse_decimal s
  end.

End strconv.

(** ** Packages time and fmt *)

Module time.

(** [time.Parse(time.RFC3339, s)] *)
Class Parser := {
  Parse_RFC3339 : string -> Time * option error
}.

End time.

(** The [%d] verb of [fmt] on an integer. *)
Definition Sprint_d (n : Z) : string :=
  DecimalString.NilZero.string_of_int (Z.to_int n).

(** ** Package service (internal/service/grinex.go) *)

Module service.

Record Rate := {
  TradingPair : string;
  AskPrice : float64;
  BidPrice : float64;
  Timestamp : Time
}.

Record GrinexTrade := {
  ID : Z;
  HID : string;
  Price : string;
  Volume : string;
  Funds : string;
  Market : string;
  CreatedAt : string
}.

(** [json.Unmarshal(body, &trades)] with [trades] a nil slice. *)
Class JSON := {
  Unmarshal : string -> list GrinexTrade * option error
}.

(** What [g.client.Do(req)] gives: an error, or a response, of which
    the code looks at the status code and at what [io.ReadAll] gets
    from the body (the bytes read and the error that stopped it). *)
Inductive RoundTrip :=
| DoFailed (err : error)
| Response (StatusCode : Z) (body : string) (readErr : option error).

(** One request of the service to the exchange: the error of
    [http.NewRequestWithContext] and the answer of [client.Do]. *)
Record HTTPCall := {
  NewRequestErr : option error;
  Do : RoundTrip
}.

Definition StatusOK : Z := 200.

Section Extractor.

Context {strconv_ : strconv.Parser} {sort_ : sort.Sorter}.

(** The loop over [trades]: the prices that parse, in the order of
    the trades; one that does not parse is skipped. *)
Fixpoint parsedPrices (trades : list GrinexTrade) : list float64 :=
  match trades with
  | [] => []
  | trade :: rest =>
      let '(price, err) := strconv.ParseFloat (Price trade) in
      match err with
      | Some _ => parsedPrices rest
      | None => price :: parsedPrices rest
      end
  end.

(** [prices[i]]; the index is in range wherever it is used (lemma
    [calculatePricesFromTrades_indices]). *)
Definition index (prices : list float64) (i : nat) : float64 :=
  nth i prices float64_zero.

Definition calculatePricesFromTrades (trades : list GrinexTrade)
  : float64 * float64 * option error :=
  if (List.length trades =? 0)%nat then
    (float64_zero, float64_zero,
     Some "no trades to calculate prices from")
  else
    let prices := parsedPrices trades in
    if (List.length prices =? 0)%nat then
      (float64_zero, float64_zero,
       Some "no valid prices found in trades")
    else
      let prices :=
        sort.Sort (sort.Reverse sort.Float64Slice_Less) prices in
      let askPrice := index prices 0 in
      let bidPrice := index prices (List.length prices - 1) in
      let bidPrice :=
        if (List.length prices <? 2)%nat then askPrice else bidPrice in
      (askPrice, bidPrice, None).

End Extractor.

Section Client.

Context {strconv_ : strconv.Parser} {sort_ : sort.Sorter}
        {time_ : time.Parser} {json_ : JSON}.

(** [call] is the request to [/api/v2/trades]; [now] is what
    [time.Now()] returns where the code falls back to it.  The match on
    [trades] is the test [len(trades) == 0] followed by [trades[0]]. *)
Definition GetUSDTRate (call : HTTPCall) (now : Time)
  : option Rate * option error :=
  match NewRequestErr call with
  | Some err => (None, Some (Errorf_w "failed to create request: " err))
  | None =>
  match Do call with
  | DoFailed err => (None, Some (Errorf_w "failed to make request: " err))
  | Response StatusCode body readErr =>
  if negb (StatusCode =? StatusOK)%Z then
    (None, Some ("API request failed with status " ++ Sprint_d StatusCode
                   ++ ": " ++ body))
  else
  match readErr with
  | Some err =>
      (None, Some (Errorf_w "failed to read response body: " err))
  | None =>
  let '(trades, err) := Unmarshal body in
  match err with
  | Some err =>
      (None, Some (Errorf_w "failed to unmarshal response: " err))
  | None =>
  match trades with
  | [] => (None, Some "no trades data available")
  | latestTrade :: _ =>
  let '(askPrice, bidPrice, err) := calculatePricesFromTrades trades in
  match err with
  | Some err =>
      (None,
       Some (Errorf_w "failed to calculate prices from trades: " err))
  | None =>
  let '(timestamp, err) := time.Parse_RFC3339 (CreatedAt latestTrade) in
  let timestamp :=
    match err with
    | Some _ => now
    | None => timestamp
    end in
  (Some {| TradingPair := "USDT/RUB";
           AskPrice := askPrice;
           BidPrice := bidPrice;
           Timestamp := timestamp |}, None)
  end end end end end end.

(** [call] is the request to [/api/v2/markets]. *)
Definition HealthCheck (call : HTTPCall) : option error :=
  match NewRequestErr call with
  | Some err =>
      Some (Errorf_w "failed to create health check request: " err)
  | None =>
  match Do call with
  | DoFailed err => Some (Errorf_w "health check request failed: " err)
  | Response StatusCode _ _ =>
      if negb (StatusCode =? StatusOK)%Z then
        Some ("health check failed with status " ++ Sprint_d StatusCode)
      else None
  end end.

End Client.

End service.

(** ** Package database (internal/database/database.go) *)

Module database.

Record RateRecord := {
  ID : Z;
  TradingPair : string;
  AskPrice : float64;
  BidPrice : float64;
  Timestamp : Time;
  CreatedAt : Time
}.

(** The zero [time.Time], January 1 of year 1, 00:00 UTC. *)
Definition zero_Time : Time := (-62135596800 * 1000000000)%Z.

(** [&RateRecord{}] *)
Definition zero_RateRecord : RateRecord :=
  {| ID := 0; TradingPair := ""; AskPrice := float64_zero;
     BidPrice := float64_zero; Timestamp := zero_Time;
     CreatedAt := zero_Time |}.

(** [record.ID = id] through the pointer [record]. *)
Definition set_ID (record : RateRecord) (id : Z) : RateRecord :=
  {| ID := id;
     TradingPair := TradingPair record;
     AskPrice := AskPrice record;
     BidPrice := BidPrice record;
     Timestamp := Timestamp record;
     CreatedAt := CreatedAt record |}.

(** Errors of [database/sql]: the sentinel [sql.ErrNoRows], which
    [errors.Is] recognises, and any other error, by its text. *)
Inductive sqlError :=
| ErrNoRows
| OtherError (msg : string).

Definition Error (err : sqlError) : error :=
  match err with
  | ErrNoRows => "sql: no rows in result set"
  | OtherError msg => msg
  end.

(** [errors.Is(err, sql.ErrNoRows)] *)
Definition Is_ErrNoRows (err : sqlError) : bool :=
  match err with
  | ErrNoRows => true
  | OtherError _ => false
  end.

(** What the connection answers to [d.db.QueryRow(query, args...)],
    as [Row.Scan] finds it:
    - the query failed, or reading the first row did ([r.err],
      [rows.Err()]), or a column does not convert to its destination;
    - the result has no row;
    - the result has a first row with the columns [row]: [Scan]
      copies them into the destinations and only then closes the
      result set, returning what [rows.Close()] returns. *)
Inductive RowResult (A : Type) :=
| QueryFailed (err : sqlError)
| NoRows
| FirstRow (row : A) (closeErr : option sqlError).

Arguments QueryFailed {A} err.
Arguments NoRows {A}.
Arguments FirstRow {A} row closeErr.

(** [row.Scan(dest...)]: the new content of the destinations and the
    error returned. *)
Definition Scan {A : Type} (r : RowResult A) (dest : A)
  : A * option sqlError :=
  match r with
  | QueryFailed err => (dest, Some err)
  | NoRows => (dest, Some ErrNoRows)
  | FirstRow row closeErr => (row, closeErr)
  end.

(** [record] is passed by pointer: the function returns the record as
    the call leaves it, and the error.  [insert] answers the
    [INSERT ... RETURNING id]. *)
Definition SaveRate (record : RateRecord) (insert : RowResult Z)
  : RateRecord * option error :=
  let '(id, err) := Scan insert (ID record) in
  let record := set_ID record id in
  match err with
  | Some err => (record, Some (Errorf_w "failed to save rate: " (Error err)))
  | None => (record, None)
  end.

(** [answer] answers the [SELECT ... LIMIT 1]. *)
Definition GetLatestRate (tradingPair : string)
           (answer : RowResult RateRecord)
  : option RateRecord * option error :=
  let record := zero_RateRecord in
  let '(record, err) := Scan answer record in
  match err with
  | Some err =>
      if Is_ErrNoRows err then
        (None, Some ("no rate found for trading pair: " ++ tradingPair))
      else
        (None, Some (Errorf_w "failed to get latest rate: " (Error err)))
  | None => (Some record, None)
  end.

(** [d.db.PingContext(ctx)] gives [ping]. *)
Definition HealthCheck (ping : option error) : option error := ping.

(** *** The query of [GetLatestRate] on a state of the table [rates]
<<
    SELECT id, trading_pair, ask_price, bid_price, timestamp, created_at
    FROM rates WHERE trading_pair = $1
    ORDER BY created_at DESC LIMIT 1
>>
    Rows are taken as [Scan] reads them back.  Among rows of equal
    [created_at] SQL leaves the order open; this evaluation keeps the
    order of the table. *)

Definition WHERE_trading_pair (tradingPair : string) (row : RateRecord)
  : bool :=
  String.eqb (TradingPair row) tradingPair.

(** [a] comes before [b] in [ORDER BY created_at DESC]. *)
Definition created_at_DESC (a b : RateRecord) : bool :=
  (CreatedAt b <? CreatedAt a)%Z.

Definition select_latest (rates : list RateRecord) (tradingPair : string)
  : list RateRecord :=
  firstn 1
    (sort.insertionSort created_at_DESC
       (filter (WHERE_trading_pair tradingPair) rates)).

(** The answer of a working connection to the query. *)
Definition QueryRow_latest (rates : list RateRecord) (tradingPair : string)
  : RowResult RateRecord :=
  match select_latest rates tradingPair with
  | [] => NoRows
  | row :: _ => FirstRow row None
  end.

(** What the connection answers to [d.db.Query(query, args...)], as the
    loop of [GetRatesByTimeRange] finds it: the query failed; or there is
    a result set, whose rows [rows.Next()] delivers one by one, each one
    scanned into a fresh record or failing to scan, until the rows end or
    an error ends them, which [rows.Err()] then reports. *)
Inductive RowsResult :=
| QueryError (err : sqlError)
| Rows (rows : list (RateRecord + sqlError)) (iterErr : option sqlError).

(** The loop [for rows.Next() { ... }]: the records appended so far and
    the error of the scan that stopped it. *)
Fixpoint scanRows (rows : list (RateRecord + sqlError))
         (records : list RateRecord) : list RateRecord * option sqlError :=
  match rows with
  | [] => (records, None)
  | inl record :: rest => scanRows rest (records ++ [record])%list
  | inr err :: _ => (records, Some err)
  end.

(** [answer] answers the [SELECT ... BETWEEN]; a nil slice is the empty
    list. *)
Definition GetRatesByTimeRange (tradingPair : string) (start end_ : Time)
           (answer : RowsResult) : list RateRecord * option error :=
  match answer with
  | QueryError err =>
      ([], Some (Errorf_w "failed to query rates: " (Error err)))
  | Rows rows iterErr =>
      let '(records, err) := scanRows rows [] in
      match err with
      | Some err =>
          ([], Some (Errorf_w "failed to scan rate record: " (Error err)))
      | None =>
          match iterErr with
          | Some err =>
              ([], Some (Errorf_w "error iterating over rows: " (Error err)))
          | None => (records, None)
          end
      end
  end.

(** *** The query of [GetRatesByTimeRange] on a state of the table
<<
      SELECT id, trading_pair, ask_price, bid_price, timestamp, created_at
      FROM rates
      WHERE trading_pair = $1 AND created_at BETWEEN $2 AND $3
      ORDER BY created_at DESC
>>
*)

Definition WHERE_range (tradingPair : string) (start end_ : Time)
           (row : RateRecord) : bool :=
  WHERE_trading_pair tradingPair row
  && ((start <=? CreatedAt row)%Z && (CreatedAt row <=? end_)%Z).

Definition select_range (rates : list RateRecord) (tradingPair : string)
           (start end_ : Time) : list RateRecord :=
  sort.insertionSort created_at_DESC
    (filter (WHERE_range tradingPair start end_) rates).

(** The answer of a working connection to the query. *)
Definition Query_range (rates : list RateRecord) (tradingPair : string)
           (start end_ : Time) : RowsResult :=
  Rows (map inl (select_range rates tradingPair start end_)) None.

End database.

(** ** Package server (server/server.go) *)

Module server.

(** [timestamppb.Timestamp] and [timestamppb.New] *)
Record Timestamp := {
  Seconds : Z;
  Nanos : Z
}.

Definition timestamppb_New (t : Time) : Timestamp :=
  {| Seconds := (t / 1000000000)%Z; Nanos := (t mod 1000000000)%Z |}.

Record GetRatesResp := {
  TradingPair : string;
  AskPrice : float64;
  BidPrice : float64;
  Timestamp_ : Timestamp
}.

Record HealthcheckResp := {
  Status : string;
  Message : string
}.

(** The struct literal [&database.RateRecord{...}] of [GetRates]; [created]
    is its [time.Now()].  The field [ID] is left at its zero value. *)
Definition newRateRecord (rate : service.Rate) (created : Time)
  : database.RateRecord :=
  {| database.ID := 0;
     database.TradingPair := service.TradingPair rate;
     database.AskPrice := service.AskPrice rate;
     database.BidPrice := service.BidPrice rate;
     database.Timestamp := service.Timestamp rate;
     database.CreatedAt := created |}.

(** The struct literal [&pb.GetRatesResp{...}] of [GetRates]. *)
Definition newGetRatesResp (rate : service.Rate) : GetRatesResp :=
  {| TradingPair := service.TradingPair rate;
     AskPrice := service.AskPrice rate;
     BidPrice := service.BidPrice rate;
     Timestamp_ := timestamppb_New (service.Timestamp rate) |}.

(** A handler returns, or panics on a nil pointer. *)
Inductive outcome (A : Type) :=
| Returns (a : A)
| Panics.

Arguments Returns {A} a.
Arguments Panics {A}.

Section Handlers.

Context {strconv_ : strconv.Parser} {sort_ : sort.Sorter}
        {time_ : time.Parser} {json_ : service.JSON}.

(** [trades] and [now] are what [GetUSDTRate] meets; [created] is
    the [time.Now()] of the record; [insert] answers the insertion. *)
Definition GetRates (trades : service.HTTPCall) (now created : Time)
           (insert : database.RowResult Z)
  : outcome (option GetRatesResp * option error) :=
  let '(rate, err) := service.GetUSDTRate trades now in
  match err with
  | Some err =>
      Returns (None, Some (Errorf_w "failed to get rate from Grinex: " err))
  | None =>
  match rate with
  | None => Panics
  | Some rate =>
  let dbRecord := newRateRecord rate created in
  let '(dbRecord, err) := database.SaveRate dbRecord insert in
  match err with
  | Some err =>
      Returns
        (None, Some (Errorf_w "failed to save rate to database: " err))
  | None =>
      Returns (Some (newGetRatesResp rate), None)
  end end end.

(** [ping] answers the ping of the database, [markets] is the
    request to the exchange. *)
Definition Healthcheck (ping : option error) (markets : service.HTTPCall)
  : option HealthcheckResp * option error :=
  let status := "healthy" in
  let message := "Service is healthy" in
  match database.HealthCheck ping with
  | Some err =>
      let status := "unhealthy" in
      let message := "Database health check failed: " ++ err in
      (Some {| Status := status; Message := message |},
       Some (Errorf_w "database health check failed: " err))
  | None =>
      let '(status, message) :=
        match service.HealthCheck markets with
        | Some err =>
            ("degraded", "Grinex API health check failed: " ++ err)
        | None => (status, message)
        end in
      (Some {| Status := status; Message := message |}, None)
  end.

End Handlers.

End server.

(** ** Package config (internal/config/config.go) *)

Module config.

Record ServerConfig := {
  Server_Port : string
}.

Record DatabaseConfig := {
  Host : string;
  Port : Z;
  User : string;
  Password : string;
  DBName : string;
  SSLMode : string
}.

Record GrinexConfig := {
  BaseURL : string;
  Timeout : Z;
  UserAgent : string
}.

Record LoggingConfig := {
  Level : string
}.

Record Config := {
  Server : ServerConfig;
  Database : DatabaseConfig;
  Grinex : GrinexConfig;
  Logging : LoggingConfig
}.

(** [strconv.Atoi] and [time.ParseDuration]; a [time.Duration] is a
    number of nanoseconds. *)
Class Conv := {
  Atoi : string -> Z * option error;
  ParseDuration : string -> Z * option error
}.

Definition Second : Z := 1000000000.

(** [fmt.Sprintf("host=%s port=%d user=%s password=%s dbname=%s
    sslmode=%s", ...)] *)
Definition GetDSN (c : DatabaseConfig) : string :=
  "host=" ++ Host c ++ " port=" ++ Sprint_d (Port c)
  ++ " user=" ++ User c ++ " password=" ++ Password c
  ++ " dbname=" ++ DBName c ++ " sslmode=" ++ SSLMode c.

(** The store of viper, as far as the package writes to it: the defaults,
    the values set explicitly, and the two settings of [loadFromEnv]. *)
Inductive value :=
| VString (s : string)
| VInt (n : Z).

Record Viper := {
  defaults : list (string * value);
  overrides : list (string * value);
  envPrefix : string;
  automaticEnv : bool
}.

Definition SetDefault (key : string) (v : value) (vp : Viper) : Viper :=
  {| defaults := (key, v) :: defaults vp;
     overrides := overrides vp;
     envPrefix := envPrefix vp;
     automaticEnv := automaticEnv vp |}.

Definition Set_ (key : string) (v : value) (vp : Viper) : Viper :=
  {| defaults := defaults vp;
     overrides := (key, v) :: overrides vp;
     envPrefix := envPrefix vp;
     automaticEnv := automaticEnv vp |}.

Definition setDefaults (vp : Viper) : Viper :=
  let vp := SetDefault "server.port" (VString "8080") vp in
  let vp := SetDefault "database.host" (VString "localhost") vp in
  let vp := SetDefault "database.port" (VInt 5432) vp in
  let vp := SetDefault "database.user" (VString "postgres") vp in
  let vp := SetDefault "database.password" (VString "password") vp in
  let vp := SetDefault "database.dbname" (VString "grinex_rates") vp in
  let vp := SetDefault "database.sslmode" (VString "disable") vp in
  let vp := SetDefault "grinex.base_url" (VString "https://grinex.io") vp in
  let vp := SetDefault "grinex.timeout" (VString "30s") vp in
  let vp :=
    SetDefault "grinex.user_agent" (VString "GrinexRateService/1.0") vp in
  SetDefault "logging.level" (VString "info") vp.

Definition loadFromEnv (vp : Viper) : Viper :=
  {| defaults := defaults vp;
     overrides := overrides vp;
     envPrefix := "";
     automaticEnv := true |}.

(** The values of the ten flags after [flag.Parse()]. *)
Record Flags := {
  port : string;
  dbHost : string;
  dbPort : Z;
  dbUser : string;
  dbPassword : string;
  dbName : string;
  dbSSLMode : string;
  grinexBaseURL : string;
  grinexTimeout : string;
  logLevel : string
}.

(** The state of the process that [Load] touches: the store of viper,
    and whether the flags of [loadFromFlags] are already defined on
    [flag.CommandLine]. *)
Record Process := {
  viper : Viper;
  flagsDefined : bool
}.

(** [Load] returns; or the process exits, in [flag.Parse()] on a command
    line it rejects or that asks for help; or it panics, in
    [flag.String] when the flag is defined already. *)
Inductive outcome (A : Type) :=
| Returns (a : A)
| Exits
| Panics.

Arguments Returns {A} a.
Arguments Exits {A}.
Arguments Panics {A}.

Definition nonempty (s : string) : bool := negb (String.eqb s "").

(** [if cond { viper.Set(key, v) }] *)
Definition Set_if (cond : bool) (key : string) (v : value) (vp : Viper)
  : Viper :=
  if cond then Set_ key v vp else vp.

(** [args] is what [flag.Parse()] makes of the command line: the values
    of the flags, or [None] when it ends the process. *)
Definition loadFromFlags (args : option Flags) (p : Process)
  : outcome Process :=
  if flagsDefined p then Panics
  else
    match args with
    | None => Exits
    | Some f =>
        let vp := viper p in
        let vp :=
          Set_if (nonempty (port f)) "server.port" (VString (port f)) vp in
        let vp :=
          Set_if (nonempty (dbHost f)) "database.host"
                 (VString (dbHost f)) vp in
        let vp :=
          Set_if (negb (dbPort f =? 0)%Z) "database.port"
                 (VInt (dbPort f)) vp in
        let vp :=
          Set_if (nonempty (dbUser f)) "database.user"
                 (VString (dbUser f)) vp in
        let vp :=
          Set_if (nonempty (dbPassword f)) "database.password"
                 (VString (dbPassword f)) vp in
        let vp :=
          Set_if (nonempty (dbName f)) "database.dbname"
                 (VString (dbName f)) vp in
        let vp :=
          Set_if (nonempty (dbSSLMode f)) "database.sslmode"
                 (VString (dbSSLMode f)) vp in
        let vp :=
          Set_if (nonempty (grinexBaseURL f)) "grinex.base_url"
                 (VString (grinexBaseURL f)) vp in
        let vp :=
          Set_if (nonempty (grinexTimeout f)) "grinex.timeout"
                 (VString (grinexTimeout f)) vp in
        let vp :=
          Set_if (nonempty (logLevel f)) "logging.level"
                 (VString (logLevel f)) vp in
        Returns {| viper := vp; flagsDefined := true |}
    end.

Section Getters.

Context {conv_ : Conv}.

(** [Getenv] is [os.Getenv]: the value of the variable, empty when it is
    not set. *)
Variable Getenv : string -> string.

Definition getString (key defaultValue : string) : string :=
  let value := Getenv key in
  if nonempty value then value else defaultValue.

Definition getInt (key : string) (defaultValue : Z) : Z :=
  let value := Getenv key in
  if nonempty value then
    let '(intValue, err) := Atoi value in
    match err with
    | None => intValue
    | Some _ => defaultValue
    end
  else defaultValue.

Definition getDuration (key : string) (defaultValue : Z) : Z :=
  let value := Getenv key in
  if nonempty value then
    let '(duration, err) := ParseDuration value in
    match err with
    | None => duration
    | Some _ => defaultValue
    end
  else defaultValue.

(** The struct literal [&Config{...}] of [Load]. *)
Definition newConfig : Config :=
  {| Server := {| Server_Port := getString "SERVER_PORT" "8080" |};
     Database :=
       {| Host := getString "DB_HOST" "localhost";
          Port := getInt "DB_PORT" 5460;
          User := getString "DB_USER" "db_admin";
          Password := getString "DB_PASSWORD" "3Qv@e8U0ImT";
          DBName := getString "DB_NAME" "grinex_rates";
          SSLMode := getString "DB_SSLMODE" "disable" |};
     Grinex :=
       {| BaseURL := getString "GRINEX_BASE_URL" "https://grinex.io";
          Timeout := getDuration "GRINEX_TIMEOUT" (30 * Second);
          UserAgent :=
            getString "GRINEX_USER_AGENT" "GrinexRateService/1.0" |};
     Logging := {| Level := getString "LOG_LEVEL" "info" |} |}.

(** [Load]: the configuration and the state it leaves. *)
Definition Load (args : option Flags) (p : Process)
  : outcome (Config * Process) :=
  let p := {| viper := setDefaults (viper p);
              flagsDefined := flagsDefined p |} in
  let p := {| viper := loadFromEnv (viper p);
              flagsDefined := flagsDefined p |} in
  match loadFromFlags args p with
  | Panics => Panics
  | Exits => Exits
  | Returns p => Returns (newConfig, p)
  end.

End Getters.

End config.

(** ** Vocabulary of the statements *)

(** A rank in a lexicographic order on triples of integers that the order
    of [Float64Slice] follows: NaN first, then negative infinity, the
    negative numbers, the zeros, the positive numbers, positive
    infinity. *)
Definition rank (f : float64) : Z * Z * Z :=
  match f with
  | S754_nan => (-3, 0, 0)
  | S754_infinity true => (-2, 0, 0)
  | S754_finite true m e => (-1, - e, - Zpos m)
  | S754_zero _ => (0, 0, 0)
  | S754_finite false m e => (1, e, Zpos m)
  | S754_infinity false => (2, 0, 0)
  end%Z.

Definition lex_lt (p q : Z * Z * Z) : Prop :=
  let '(p1, p2, p3) := p in
  let '(q1, q2, q3) := q in
  (p1 < q1 \/ (p1 = q1 /\ (p2 < q2 \/ (p2 = q2 /\ p3 < q3))))%Z.

(** Equal, or zeros that differ in sign at most. *)
Definition same_number (a b : float64) : Prop :=
  a = b \/ exists s s', a = S754_zero s /\ b = S754_zero s'.

Section Vocabulary.

Context {strconv_ : strconv.Parser} {sort_ : sort.Sorter}
        {time_ : time.Parser}.

(** [p] is the price of one of [trades], parsed without error. *)
Definition parsed_price (trades : list service.GrinexTrade) (p : float64)
  : Prop :=
  exists t, In t trades /\ strconv.ParseFloat (service.Price t) = (p, None).

(** The price of [t] does not parse. *)
Definition unparseable (t : service.GrinexTrade) : Prop :=
  snd (strconv.ParseFloat (service.Price t)) <> None.

(** The slice [prices] as [sort.Sort] leaves it. *)
Definition sortedPrices (trades : list service.GrinexTrade) : list float64 :=
  sort.Sort (sort.Reverse sort.Float64Slice_Less)
            (service.parsedPrices trades).

(** The timestamp given to a rate whose newest trade is [latestTrade]. *)
Definition timestamp_of (latestTrade : service.GrinexTrade) (now : Time)
  : Time :=
  match time.Parse_RFC3339 (service.CreatedAt latestTrade) with
  | (_, Some _) => now
  | (timestamp, None) => timestamp
  end.

End Vocabulary.

(** The rows of [rates] that the [WHERE] clause keeps, in the order of the
    [ORDER BY] clause. *)
Definition ordered_rows (rates : list database.RateRecord)
           (tradingPair : string) : list database.RateRecord :=
  sort.insertionSort database.created_at_DESC
    (filter (database.WHERE_trading_pair tradingPair) rates).

(** [ordered] is a result of [ORDER BY created_at DESC] on the rows
    [selected]: the same rows, none before one with a later [created_at];
    rows of equal [created_at] may come in any order. *)
Definition ORDER_BY_created_at_DESC
           (selected ordered : list database.RateRecord) : Prop :=
  Permutation selected ordered /\
  StronglySorted
    (fun a b => (database.CreatedAt b <= database.CreatedAt a)%Z) ordered.

(** What [QueryRow] finds when the ordered rows are cut by [LIMIT 1] on a
    working connection. *)
Definition LIMIT_1 (ordered : list database.RateRecord)
  : database.RowResult database.RateRecord :=
  match ordered with
  | [] => database.NoRows
  | row :: _ => database.FirstRow row None
  end.

(** ** Stand-ins for evaluation *)

(** A JSON decoder that finds [trades] in every body, as a test server
    that always sends the same document. *)
Definition json_always (trades : list service.GrinexTrade) : service.JSON :=
  {| service.Unmarshal := fun _ => (trades, None) |}.

(** [time.Parse] on the instants listed in [table]; any other string is
    not a time. *)
Fixpoint lookup_time (table : list (string * Time)) (s : string)
  : Time * option error :=
  match table with
  | [] => (database.zero_Time, Some "cannot parse as RFC3339")
  | (k, t) :: table' => if String.eqb k s then (t, None) else lookup_time table' s
  end.

Definition time_table (table : list (string * Time)) : time.Parser :=
  {| time.Parse_RFC3339 := lookup_time table |}.

Definition strconv_decimal : strconv.Parser :=
  {| strconv.ParseFloat := strconv.ParseFloat_decimal |}.

(** A trade of which only the price and the time are given. *)
Definition trade (price created_at : string) : service.GrinexTrade :=
  {| service.ID := 0; service.HID := ""; service.Price := price;
     service.Volume := ""; service.Funds := ""; service.Market := "";
     service.CreatedAt := created_at |}.

(** The trades of [TestGetUSDTRate_Success] and the instants their
    [created_at] denote. *)
Definition test_trades : list service.GrinexTrade :=
  [ trade "81.25" "2025-07-28T21:22:14+03:00";
    trade "81.20" "2025-07-28T21:19:53+03:00";
    trade "81.30" "2025-07-28T21:18:00+03:00" ].

Definition test_times : time.Parser :=
  time_table
    [ ("2025-07-28T21:22:14+03:00", 1753726934000000000%Z);
      ("2025-07-28T21:19:53+03:00", 1753726793000000000%Z);
      ("2025-07-28T21:18:00+03:00", 1753726680000000000%Z) ].

(** A request that is answered with status 200 and a body read without
    error. *)
Definition answered (body : string) : service.HTTPCall :=
  {| service.NewRequestErr := None;
     service.Do := service.Response 200 body None |}.

(** The floats that some decimal literals denote. *)
Definition f81_25 : float64 :=
  Eval vm_compute in fst (strconv.ParseFloat_decimal "81.25").
Definition f81_20 : float64 :=
  Eval vm_compute in fst (strconv.ParseFloat_decimal "81.20").
Definition f81_30 : float64 :=
  Eval vm_compute in fst (strconv.ParseFloat_decimal "81.30").
Definition f81_15 : float64 :=
  Eval vm_compute in fst (strconv.ParseFloat_decimal "81.15").
Definition f1 : float64 :=
  Eval vm_compute in fst (strconv.ParseFloat_decimal "1").

(** Trades with a price [NaN], and with zeros of both signs. *)
Definition nan_trades : list service.GrinexTrade :=
  [ trade "NaN" ""; trade "1" "" ].
Definition zero_trades : list service.GrinexTrade :=
  [ trade "0" ""; trade "-0" "" ].
Definition zero_trades_swapped : list service.GrinexTrade :=
  [ trade "-0" ""; trade "0" "" ].

(** A record as [GetRates] builds it, and rows of the table. *)
Definition test_record : database.RateRecord :=
  {| database.ID := 0; database.TradingPair := "USDT/RUB";
     database.AskPrice := f81_30; database.BidPrice := f81_20;
     database.Timestamp := 1753726934000000000%Z;
     database.CreatedAt := 1753726935000000000%Z |}.

Definition row (id : Z) (pair : string) (created_at : Z)
  : database.RateRecord :=
  {| database.ID := id; database.TradingPair := pair;
     database.AskPrice := f81_30; database.BidPrice := f81_20;
     database.Timestamp := created_at; database.CreatedAt := created_at |}.

Definition test_rates : list database.RateRecord :=
  [ row 1 "USDT/RUB" 100; row 2 "BTC/RUB" 400;
    row 3 "USDT/RUB" 300; row 4 "USDT/RUB" 200 ].

(** The first trade of [TestGetUSDTRate_Success] with all its fields. *)
Definition full_trade : service.GrinexTrade :=
  {| service.ID := 199135; service.HID := "0cd78513afe";
     service.Price := "81.25"; service.Volume := "3003.003";
     service.Funds := "243993.99"; service.Market := "usdtrub";
     service.CreatedAt := "2025-07-28T21:22:14+03:00" |}.

(** The environment of [TestLoadWithEnvVars], the two conversions on the
    values it uses, flags that all differ from their defaults, and a
    process in which [Load] has not run. *)
Fixpoint lookup_env (table : list (string * string)) (key : string)
  : string :=
  match table with
  | [] => ""
  | (k, v) :: table' => if String.eqb k key then v else lookup_env table' key
  end.

Definition test_env : string -> string :=
  lookup_env
    [ ("SERVER_PORT", "9090"); ("DB_HOST", "test-host");
      ("DB_PORT", "5433"); ("DB_USER", "test-user");
      ("DB_PASSWORD", "test-password"); ("DB_NAME", "test-db");
      ("DB_SSLMODE", "require");
      ("GRINEX_BASE_URL", "https://test-grinex.io");
      ("GRINEX_TIMEOUT", "60s"); ("GRINEX_USER_AGENT", "TestAgent/1.0");
      ("LOG_LEVEL", "debug") ].

Definition test_conv : config.Conv :=
  {| config.Atoi := fun s =>
       if String.eqb s "5433" then (5433%Z, None)
       else (0%Z, Some "invalid syntax");
     config.ParseDuration := fun s =>
       if String.eqb s "60s" then (60000000000%Z, None)
       else (0%Z, Some "invalid duration") |}.

Definition test_flags : config.Flags :=
  {| config.port := "7070"; config.dbHost := "flag-host";
     config.dbPort := 6543; config.dbUser := "flag-user";
     config.dbPassword := "flag-password"; config.dbName := "flag-db";
     config.dbSSLMode := "verify-full";
     config.grinexBaseURL := "https://flag.example";
     config.grinexTimeout := "5s"; config.logLevel := "error" |}.

Definition no_flags : config.Flags :=
  {| config.port := ""; config.dbHost := ""; config.dbPort := 0;
     config.dbUser := ""; config.dbPassword := ""; config.dbName := "";
     config.dbSSLMode := ""; config.grinexBaseURL := "";
     config.grinexTimeout := ""; config.logLevel := "" |}.

Definition fresh_process : config.Process :=
  {| config.viper :=
       {| config.defaults := []; config.overrides := [];
          config.envPrefix := ""; config.automaticEnv := false |};
     config.flagsDefined := false |}.

Definition test_config : config.Config :=
  {| config.Server := {| config.Server_Port := "9090" |};
     config.Database :=
       {| config.Host := "test-host"; config.Port := 5433;
          config.User := "test-user"; config.Password := "test-password";
          config.DBName := "test-db"; config.SSLMode := "require" |};
     config.Grinex :=
       {| config.BaseURL := "https://test-grinex.io";
          config.Timeout := 60000000000;
          config.UserAgent := "TestAgent/1.0" |};
     config.Logging := {| config.Level := "debug" |} |}.

(** ** Facts about the order of [sort.Float64Slice] *)

Lemma Pos_compare_cont_Eq (m1 m2 : positive) :
  Pos.compare_cont Eq m1 m2 = Pos.compare m1 m2.
Proof. reflexivity. Qed.

Lemma Float64Slice_Less_rank (a b : float64) :
  sort.Float64Slice_Less a b = true <-> lex_lt (rank a) (rank b).
Proof.
  unfold sort.Float64Slice_Less, sort.isNaN, float64_lt, float64_eq,
    SFltb, SFeqb.
  destruct a as [sa| sa | |sa ma ea], b as [sb | sb | | sb mb eb];
    try destruct sa; try destruct sb; cbn;
    rewrite ?Pos_compare_cont_Eq, ?Z.compare_refl, ?Pos.compare_refl; cbn;
    try destruct (Z.compare_spec ea eb);
    try destruct (Pos.compare_spec ma mb); cbn;
    (split; [ intros; try discriminate; lia | intros; try reflexivity; lia ]).
Qed.

Lemma Float64Slice_Less_false_rank (a b : float64) :
  sort.Float64Slice_Less a b = false <-> ~ lex_lt (rank a) (rank b).
Proof.
  rewrite <- Float64Slice_Less_rank.
  destruct (sort.Float64Slice_Less a b); split; congruence.
Qed.

Lemma lex_lt_asym p q : lex_lt p q -> ~ lex_lt q p.
Proof.
  destruct p as [[p1 p2] p3], q as [[q1 q2] q3]; unfold lex_lt; lia.
Qed.

Lemma lex_lt_negtrans p q r : ~ lex_lt p q -> ~ lex_lt q r -> ~ lex_lt p r.
Proof.
  destruct p as [[p1 p2] p3], q as [[q1 q2] q3], r as [[r1 r2] r3];
    unfold lex_lt; lia.
Qed.

Lemma Float64Slice_Less_swo : sort.strict_weak_order sort.Float64Slice_Less.
Proof.
  split.
  - intros a b H. apply Float64Slice_Less_false_rank.
    apply lex_lt_asym. now apply Float64Slice_Less_rank.
  - intros a b c Hab Hbc. apply Float64Slice_Less_false_rank.
    apply Float64Slice_Less_false_rank in Hab, Hbc.
    eapply lex_lt_negtrans; eassumption.
Qed.

Lemma Reverse_swo {A : Type} (less : A -> A -> bool) :
  sort.strict_weak_order less -> sort.strict_weak_order (sort.Reverse less).
Proof.
  intros [Hasym Hneg]. split; unfold sort.Reverse.
  - intros a b H. now apply Hasym.
  - intros a b c Hab Hbc. eapply Hneg; eassumption.
Qed.

(** ** Insertion sort meets the contract of [sort.Sort] *)

Section InsertionSort.

Context {A : Type} (less : A -> A -> bool).

Lemma sift_Permutation (x : A) (l : list A) :
  Permutation (x :: l) (sort.sift less x l).
Proof.
  induction l as [|y rest IH]; cbn [sort.sift].
  - apply Permutation_refl.
  - destruct (forallb (less x) (y :: rest)).
    + apply Permutation_refl.
    + eapply perm_trans; [ apply perm_swap | apply perm_skip, IH ].
Qed.

Lemma insertionSort_from_Permutation (rest sorted : list A) :
  Permutation (sorted ++ rest) (sort.insertionSort_from less sorted rest).
Proof.
  revert sorted. induction rest as [|x rest IH]; intros sorted; cbn.
  - rewrite app_nil_r. apply Permutation_refl.
  - eapply perm_trans; [ | apply IH ].
    apply Permutation_sym. eapply perm_trans.
    + apply Permutation_app_tail, Permutation_sym, sift_Permutation.
    + cbn. apply Permutation_middle.
Qed.

Hypothesis less_swo : sort.strict_weak_order less.

Lemma swo_irrefl (a : A) : less a a = false.
Proof.
  destruct (less a a) eqn:E; [ | reflexivity ].
  rewrite (sort.swo_asym less less_swo a a E) in E. discriminate.
Qed.

Lemma sift_StronglySorted (x : A) (l : list A) :
  StronglySorted (sort.not_after less) l ->
  StronglySorted (sort.not_after less) (sort.sift less x l).
Proof.
  induction 1 as [|y rest Hrest IH Hy]; cbn [sort.sift].
  - repeat constructor.
  - destruct (forallb (less x) (y :: rest)) eqn:E.
    + constructor; [ constructor; assumption | ].
      rewrite forallb_forall in E. apply Forall_forall. intros z Hz.
      unfold sort.not_after. apply (sort.swo_asym less less_swo), E, Hz.
    + constructor; [ exact IH | ].
      assert (Hxy : sort.not_after less y x).
      { unfold sort.not_after.
        cbn [forallb] in E. apply andb_false_iff in E. destruct E as [E|E].
        - exact E.
        - destruct (forallb (less x) rest) eqn:F; [ discriminate | ].
          assert (Hex : exists z, In z rest /\ less x z = false).
          { clear -F. induction rest as [|z rest IHr]; [ discriminate | ].
            cbn in F. apply andb_false_iff in F. destruct F as [F|F].
            - exists z. split; [ now left | exact F ].
            - destruct (IHr F) as [w [Hin Hw]].
              exists w. split; [ now right | exact Hw ]. }
          destruct Hex as [z [Hin Hz]].
          rewrite Forall_forall in Hy.
          exact (sort.swo_negtrans less less_swo x z y Hz (Hy z Hin)). }
      eapply Permutation_Forall; [ apply sift_Permutation | ].
      constructor; assumption.
Qed.

Lemma insertionSort_from_StronglySorted (rest sorted : list A) :
  StronglySorted (sort.not_after less) sorted ->
  StronglySorted (sort.not_after less)
                 (sort.insertionSort_from less sorted rest).
Proof.
  revert sorted. induction rest as [|x rest IH]; intros sorted Hs; cbn.
  - exact Hs.
  - apply IH, sift_StronglySorted, Hs.
Qed.

End InsertionSort.

Lemma insertionSort_Permutation {A : Type} (less : A -> A -> bool)
      (l : list A) :
  Permutation l (sort.insertionSort less l).
Proof. exact (insertionSort_from_Permutation less l []). Qed.

Lemma insertionSort_StronglySorted {A : Type} (less : A -> A -> bool)
      (l : list A) :
  sort.strict_weak_order less ->
  StronglySorted (sort.not_after less) (sort.insertionSort less l).
Proof.
  intros Hswo. apply insertionSort_from_StronglySorted; [ exact Hswo | ].
  constructor.
Qed.

(** [sort.Sort] as it runs on short slices. *)
Definition sort_insertion : sort.Sorter :=
  {| sort.Sort := @sort.insertionSort;
     sort.Sort_Permutation := @insertionSort_Permutation;
     sort.Sort_StronglySorted := @insertionSort_StronglySorted |}.

(** ** First and last element of a sorted slice *)

Section Extremes.

Context {A : Type} (R : A -> A -> Prop).
Hypothesis R_refl : forall a, R a a.

Lemma StronglySorted_head (a d : A) (l : list A) :
  StronglySorted R l -> In a l -> R (nth 0 l d) a.
Proof.
  intros Hs Hin. destruct l as [|h t]; [ contradiction | ]. cbn.
  destruct Hin as [<-|Hin]; [ apply R_refl | ].
  apply StronglySorted_inv in Hs. destruct Hs as [_ Hh].
  rewrite Forall_forall in Hh. now apply Hh.
Qed.

Lemma StronglySorted_last (a d : A) (l : list A) :
  StronglySorted R l -> In a l -> R a (last l d).
Proof.
  induction 1 as [|h t Ht IH Hh]; intros Hin; [ contradiction | ].
  destruct t as [|h' t'].
  - destruct Hin as [<-|[]]. apply R_refl.
  - change (last (h :: h' :: t') d) with (last (h' :: t') d).
    destruct Hin as [<-|Hin]; [ | now apply IH ].
    rewrite Forall_forall in Hh. apply Hh.
    clear. generalize h'. induction t' as [|x t' IHt]; intros y.
    + now left.
    + change (last (y :: x :: t') d) with (last (x :: t') d).
      right. apply IHt.
Qed.

End Extremes.

Lemma nth_pred_length_last {A : Type} (l : list A) (d : A) :
  nth (List.length l - 1) l d = last l d.
Proof.
  induction l as [|a l IH]; [ reflexivity | ].
  destruct l as [|b l]; [ reflexivity | ].
  change (last (a :: b :: l) d) with (last (b :: l) d).
  rewrite <- IH. cbn. now rewrite Nat.sub_0_r.
Qed.

(** ** More on the order of floats *)

Lemma float64_le_rank (a b : float64) :
  sort.isNaN a = false -> sort.isNaN b = false ->
  (float64_le a b = true <-> ~ lex_lt (rank b) (rank a)).
Proof.
  unfold sort.isNaN, float64_le, float64_eq, SFleb, SFeqb.
  destruct a as [sa| sa | |sa ma ea], b as [sb | sb | | sb mb eb];
    try destruct sa; try destruct sb; cbn; intros Ha Hb;
    try discriminate;
    rewrite ?Pos_compare_cont_Eq;
    try destruct (Z.compare_spec ea eb);
    try destruct (Pos.compare_spec ma mb); cbn;
    (split; [ intros; try discriminate; lia | intros; try reflexivity; lia ]).
Qed.

Lemma rank_same_number (a b : float64) : rank a = rank b -> same_number a b.
Proof.
  destruct a as [sa| sa | |sa ma ea], b as [sb | sb | | sb mb eb];
    try destruct sa; try destruct sb; cbn; intros H;
    try discriminate; try (left; reflexivity);
    try (right; eexists; eexists; split; reflexivity).
  all: left; injection H as He Hm; f_equal; lia.
Qed.

Lemma lex_lt_total p q : ~ lex_lt p q -> ~ lex_lt q p -> p = q.
Proof.
  destruct p as [[p1 p2] p3], q as [[q1 q2] q3]; unfold lex_lt.
  intros H1 H2. repeat f_equal; lia.
Qed.

Lemma Float64Slice_Less_equiv (a b : float64) :
  sort.Float64Slice_Less a b = false ->
  sort.Float64Slice_Less b a = false ->
  same_number a b.
Proof.
  intros Hab Hba. apply rank_same_number, lex_lt_total.
  - now apply Float64Slice_Less_false_rank.
  - now apply Float64Slice_Less_false_rank.
Qed.

Lemma Float64Slice_Less_irrefl (a : float64) :
  sort.Float64Slice_Less a a = false.
Proof. apply swo_irrefl, Float64Slice_Less_swo. Qed.

(** ** The extractor *)

Section ExtractorFacts.

Context {strconv_ : strconv.Parser} {sort_ : sort.Sorter}.

Lemma parsedPrices_In (trades : list service.GrinexTrade) (p : float64) :
  In p (service.parsedPrices trades) <-> parsed_price trades p.
Proof.
  unfold parsed_price. induction trades as [|t rest IH]; cbn.
  - split; [ contradiction | intros [t [[] _]] ].
  - destruct (strconv.ParseFloat (service.Price t)) as [q [e|]] eqn:E.
    + rewrite IH. split.
      * intros [t' [Hin Hp]]. exists t'. split; [ now right | exact Hp ].
      * intros [t' [[<-|Hin] Hp]]; [ congruence | ].
        exists t'. split; assumption.
    + cbn. rewrite IH. split.
      * intros [<-|[t' [Hin Hp]]].
        -- exists t. split; [ now left | exact E ].
        -- exists t'. split; [ now right | exact Hp ].
      * intros [t' [[<-|Hin] Hp]].
        -- left. congruence.
        -- right. exists t'. split; assumption.
Qed.

Lemma parsedPrices_nil (trades : list service.GrinexTrade) :
  service.parsedPrices trades = [] <-> Forall unparseable trades.
Proof.
  unfold unparseable. induction trades as [|t rest IH]; cbn.
  - split; [ constructor | reflexivity ].
  - destruct (strconv.ParseFloat (service.Price t)) as [q [e|]] eqn:E.
    + rewrite IH. split.
      * intros H. constructor; [ rewrite E; discriminate | exact H ].
      * intros H. now inversion H.
    + split; [ discriminate | ].
      intros H. inversion H as [|? ? Ht _]. rewrite E in Ht. now elim Ht.
Qed.

Lemma parsedPrices_app (l1 l2 : list service.GrinexTrade) :
  service.parsedPrices (l1 ++ l2)
  = (service.parsedPrices l1 ++ service.parsedPrices l2)%list.
Proof.
  induction l1 as [|t rest IH]; cbn; [ reflexivity | ].
  destruct (strconv.ParseFloat (service.Price t)) as [q [e|]];
    [ exact IH | cbn; now rewrite IH ].
Qed.

Lemma parsedPrices_Permutation (l1 l2 : list service.GrinexTrade) :
  Permutation l1 l2 ->
  Permutation (service.parsedPrices l1) (service.parsedPrices l2).
Proof.
  induction 1 as [|t l l' _ IH|t u l|l l' l'' _ IH1 _ IH2]; cbn.
  - constructor.
  - destruct (strconv.ParseFloat (service.Price t)) as [q [e|]];
      [ exact IH | now constructor ].
  - destruct (strconv.ParseFloat (service.Price t)) as [q [e|]];
      destruct (strconv.ParseFloat (service.Price u)) as [q' [e'|]];
      try apply Permutation_refl. apply perm_swap.
  - eapply perm_trans; eassumption.
Qed.

Lemma sortedPrices_Permutation (trades : list service.GrinexTrade) :
  Permutation (service.parsedPrices trades) (sortedPrices trades).
Proof. apply sort.Sort_Permutation. Qed.

Lemma sortedPrices_length (trades : list service.GrinexTrade) :
  List.length (sortedPrices trades)
  = List.length (service.parsedPrices trades).
Proof.
  symmetry. apply Permutation_length, sortedPrices_Permutation.
Qed.

Lemma sortedPrices_In (trades : list service.GrinexTrade) (p : float64) :
  In p (sortedPrices trades) <-> parsed_price trades p.
Proof.
  rewrite <- parsedPrices_In. split; apply Permutation_in.
  - apply Permutation_sym, sortedPrices_Permutation.
  - apply sortedPrices_Permutation.
Qed.

Lemma sortedPrices_StronglySorted (trades : list service.GrinexTrade) :
  StronglySorted
    (sort.not_after (sort.Reverse sort.Float64Slice_Less))
    (sortedPrices trades).
Proof.
  apply sort.Sort_StronglySorted, Reverse_swo, Float64Slice_Less_swo.
Qed.

(** The two indices used by [calculatePricesFromTrades] are in range
    where it uses them. *)
Lemma calculatePricesFromTrades_indices (trades : list service.GrinexTrade) :
  service.parsedPrices trades <> [] ->
  (0 < List.length (sortedPrices trades))%nat /\
  (List.length (sortedPrices trades) - 1
   < List.length (sortedPrices trades))%nat.
Proof.
  intros H. rewrite sortedPrices_length.
  destruct (service.parsedPrices trades); [ congruence | cbn; lia ].
Qed.

(** What the function returns once a price has parsed. *)
Lemma calculatePricesFromTrades_success (trades : list service.GrinexTrade) :
  service.parsedPrices trades <> [] ->
  service.calculatePricesFromTrades trades
  = (nth 0 (sortedPrices trades) float64_zero,
     last (sortedPrices trades) float64_zero, None).
Proof.
  intros H. unfold service.calculatePricesFromTrades, service.index.
  fold (sortedPrices trades).
  destruct trades as [|t rest]; [ now elim H | ].
  cbn [List.length Nat.eqb].
  destruct (service.parsedPrices (t :: rest)) as [|p ps] eqn:E;
    [ now elim H | ].
  cbn [List.length Nat.eqb].
  rewrite nth_pred_length_last.
  destruct (List.length (sortedPrices (t :: rest)) <? 2)%nat eqn:L;
    [ | reflexivity ].
  apply Nat.ltb_lt in L.
  destruct (sortedPrices (t :: rest)) as [|a [|b l]] eqn:S; cbn in L |- *;
    try reflexivity; lia.
Qed.

Lemma head_not_less (trades : list service.GrinexTrade) (p : float64) :
  parsed_price trades p ->
  sort.Float64Slice_Less (nth 0 (sortedPrices trades) float64_zero) p = false.
Proof.
  intros Hp. apply sortedPrices_In in Hp.
  apply (StronglySorted_head
           (sort.not_after (sort.Reverse sort.Float64Slice_Less)));
    [ | apply sortedPrices_StronglySorted | exact Hp ].
  intros a. apply Float64Slice_Less_irrefl.
Qed.

Lemma last_not_greater (trades : list service.GrinexTrade) (p : float64) :
  parsed_price trades p ->
  sort.Float64Slice_Less p (last (sortedPrices trades) float64_zero) = false.
Proof.
  intros Hp. apply sortedPrices_In in Hp.
  apply (StronglySorted_last
           (sort.not_after (sort.Reverse sort.Float64Slice_Less)));
    [ | apply sortedPrices_StronglySorted | exact Hp ].
  intros a. apply Float64Slice_Less_irrefl.
Qed.

Lemma head_parsed (trades : list service.GrinexTrade) :
  service.parsedPrices trades <> [] ->
  parsed_price trades (nth 0 (sortedPrices trades) float64_zero).
Proof.
  intros H. apply sortedPrices_In, nth_In.
  apply calculatePricesFromTrades_indices, H.
Qed.

Lemma last_parsed (trades : list service.GrinexTrade) :
  service.parsedPrices trades <> [] ->
  parsed_price trades (last (sortedPrices trades) float64_zero).
Proof.
  intros H. apply sortedPrices_In. rewrite <- nth_pred_length_last.
  apply nth_In, calculatePricesFromTrades_indices, H.
Qed.

End ExtractorFacts.

Section ExtractorClaims.

Context {strconv_ : strconv.Parser} {sort_ : sort.Sorter}.

Lemma parsed_price_nonempty (trades : list service.GrinexTrade) :
  (exists p, parsed_price trades p) <-> service.parsedPrices trades <> [].
Proof.
  split.
  - intros [p Hp] E. apply parsedPrices_In in Hp. rewrite E in Hp.
    contradiction.
  - intros H. destruct (service.parsedPrices trades) as [|p ps] eqn:E;
      [ now elim H | ].
    exists p. apply parsedPrices_In. rewrite E. now left.
Qed.

Lemma parsed_price_Permutation (l1 l2 : list service.GrinexTrade)
      (p : float64) :
  Permutation l1 l2 -> parsed_price l1 p -> parsed_price l2 p.
Proof.
  intros HP [t [Hin Hp]]. exists t. split; [ | exact Hp ].
  eapply Permutation_in; eassumption.
Qed.

Lemma calculatePricesFromTrades_empty :
  service.calculatePricesFromTrades []
  = (float64_zero, float64_zero, Some "no trades to calculate prices from").
Proof. reflexivity. Qed.

Lemma calculatePricesFromTrades_no_valid (trades : list service.GrinexTrade) :
  trades <> [] ->
  service.parsedPrices trades = [] ->
  service.calculatePricesFromTrades trades
  = (float64_zero, float64_zero, Some "no valid prices found in trades").
Proof.
  intros Hne E. unfold service.calculatePricesFromTrades.
  destruct trades; [ now elim Hne | ]. cbn [List.length Nat.eqb].
  now rewrite E.
Qed.

(** C2 (as amended).  When at least one price parses and no parsed price
    is NaN, the extraction succeeds; the ask is a parsed price that no
    parsed price exceeds, the bid is a parsed price that exceeds no parsed
    price, and ask >= bid. *)
Theorem calculatePricesFromTrades_max_min
        (trades : list service.GrinexTrade) :
  (exists p, parsed_price trades p) ->
  (forall p, parsed_price trades p -> sort.isNaN p = false) ->
  exists ask bid,
    service.calculatePricesFromTrades trades = (ask, bid, None) /\
    parsed_price trades ask /\
    (forall p, parsed_price trades p -> float64_le p ask = true) /\
    parsed_price trades bid /\
    (forall p, parsed_price trades p -> float64_le bid p = true) /\
    float64_ge ask bid = true.
Proof.
  intros Hex Hnan. apply parsed_price_nonempty in Hex.
  pose proof (head_parsed trades Hex) as Hask.
  pose proof (last_parsed trades Hex) as Hbid.
  set (ask := nth 0 (sortedPrices trades) float64_zero) in *.
  set (bid := last (sortedPrices trades) float64_zero) in *.
  assert (Hmax : forall p, parsed_price trades p -> float64_le p ask = true).
  { intros p Hp. apply float64_le_rank; auto.
    apply Float64Slice_Less_false_rank. now apply head_not_less. }
  assert (Hmin : forall p, parsed_price trades p -> float64_le bid p = true).
  { intros p Hp. apply float64_le_rank; auto.
    apply Float64Slice_Less_false_rank. now apply last_not_greater. }
  exists ask, bid. repeat split; auto.
  - now apply calculatePricesFromTrades_success.
  - unfold float64_ge. exact (Hmin ask Hask).
Qed.

(** C4.  The extraction fails with the empty-input error exactly on the
    empty list, with the no-valid-prices error exactly on a non-empty
    list none of whose prices parses, and succeeds otherwise. *)
Theorem calculatePricesFromTrades_errors (trades : list service.GrinexTrade) :
  (snd (service.calculatePricesFromTrades trades)
   = Some "no trades to calculate prices from" <-> trades = []) /\
  (snd (service.calculatePricesFromTrades trades)
   = Some "no valid prices found in trades" <->
   trades <> [] /\ Forall unparseable trades) /\
  (snd (service.calculatePricesFromTrades trades) = None <->
   trades <> [] /\ ~ Forall unparseable trades).
Proof.
  destruct trades as [|t rest].
  - rewrite calculatePricesFromTrades_empty. cbn.
    split; [ | split ]; split.
    + reflexivity.
    + reflexivity.
    + discriminate.
    + intros [Hne _]. now elim Hne.
    + discriminate.
    + intros [Hne _]. now elim Hne.
  - assert (Hne : t :: rest <> []) by discriminate.
    destruct (service.parsedPrices (t :: rest)) as [|p ps] eqn:E.
    + rewrite (calculatePricesFromTrades_no_valid _ Hne E). cbn.
      apply parsedPrices_nil in E.
      split; [ | split ]; split.
      * discriminate.
      * discriminate.
      * intros _. split; assumption.
      * reflexivity.
      * discriminate.
      * intros [_ Hnot]. now elim Hnot.
    + assert (Hps : service.parsedPrices (t :: rest) <> [])
        by (rewrite E; discriminate).
      rewrite (calculatePricesFromTrades_success _ Hps). cbn.
      split; [ | split ]; split.
      * discriminate.
      * discriminate.
      * discriminate.
      * intros [_ Hall]. apply parsedPrices_nil in Hall. congruence.
      * intros _. split; [ exact Hne | ].
        intros Hall. apply parsedPrices_nil in Hall. congruence.
      * reflexivity.
Qed.

(** C6 (as amended).  On two lists of trades that are permutations of each
    other the extraction fails or succeeds alike, with the same error, and
    returns the same ask and the same bid, except that a zero may differ
    in sign. *)
Theorem calculatePricesFromTrades_Permutation
        (trades trades' : list service.GrinexTrade)
        (ask bid ask' bid' : float64) (err err' : option error) :
  Permutation trades trades' ->
  service.calculatePricesFromTrades trades = (ask, bid, err) ->
  service.calculatePricesFromTrades trades' = (ask', bid', err') ->
  err = err' /\ same_number ask ask' /\ same_number bid bid'.
Proof.
  intros HP H H'.
  destruct trades as [|t rest].
  { apply Permutation_nil in HP. subst trades'.
    rewrite H in H'. injection H' as <- <- <-.
    repeat split; now left. }
  assert (Hne : t :: rest <> []) by discriminate.
  assert (Hne' : trades' <> []).
  { intros ->. apply Permutation_sym, Permutation_nil in HP. discriminate. }
  pose proof (parsedPrices_Permutation _ _ HP) as HPP.
  destruct (service.parsedPrices (t :: rest)) as [|p ps] eqn:E.
  { apply Permutation_nil in HPP.
    rewrite (calculatePricesFromTrades_no_valid _ Hne E) in H.
    rewrite (calculatePricesFromTrades_no_valid _ Hne' HPP) in H'.
    rewrite H in H'. injection H' as <- <- <-.
    repeat split; now left. }
  assert (Hps : service.parsedPrices (t :: rest) <> [])
    by (rewrite E; discriminate).
  assert (Hps' : service.parsedPrices trades' <> []).
  { intros E'. rewrite E' in HPP.
    apply Permutation_sym, Permutation_nil in HPP. discriminate. }
  rewrite (calculatePricesFromTrades_success _ Hps) in H.
  rewrite (calculatePricesFromTrades_success _ Hps') in H'.
  injection H as <- <- <-. injection H' as <- <- <-.
  pose proof (Permutation_sym HP) as HP'.
  repeat split.
  - apply Float64Slice_Less_equiv; apply head_not_less.
    + eapply parsed_price_Permutation; [ exact HP' | now apply head_parsed ].
    + eapply parsed_price_Permutation; [ exact HP | now apply head_parsed ].
  - apply Float64Slice_Less_equiv; apply last_not_greater.
    + eapply parsed_price_Permutation; [ exact HP | now apply last_parsed ].
    + eapply parsed_price_Permutation; [ exact HP' | now apply last_parsed ].
Qed.

(** C7.  When exactly one trade has a price that parses, to [p], and the
    prices of all the others fail to parse, the extraction succeeds with
    ask = bid = [p]. *)
Theorem calculatePricesFromTrades_single
        (before after : list service.GrinexTrade) (t : service.GrinexTrade)
        (p : float64) :
  strconv.ParseFloat (service.Price t) = (p, None) ->
  Forall unparseable before ->
  Forall unparseable after ->
  service.calculatePricesFromTrades (before ++ t :: after) = (p, p, None).
Proof.
  intros Hp Hb Ha.
  assert (E : service.parsedPrices (before ++ t :: after) = [p]).
  { rewrite parsedPrices_app. apply parsedPrices_nil in Hb, Ha.
    rewrite Hb. cbn. now rewrite Hp, Ha. }
  assert (S : sortedPrices (before ++ t :: after) = [p]).
  { apply Permutation_length_1_inv. rewrite <- E.
    apply sortedPrices_Permutation. }
  rewrite calculatePricesFromTrades_success by (rewrite E; discriminate).
  now rewrite S.
Qed.

End ExtractorClaims.

(** ** The client *)

Section ClientClaims.

Context {strconv_ : strconv.Parser} {sort_ : sort.Sorter}
        {time_ : time.Parser} {json_ : service.JSON}.

(** The one way [GetUSDTRate] returns a rate. *)
Lemma GetUSDTRate_success (call : service.HTTPCall) (now : Time)
      (body : string) (latestTrade : service.GrinexTrade)
      (rest : list service.GrinexTrade) (ask bid : float64) :
  service.NewRequestErr call = None ->
  service.Do call = service.Response service.StatusOK body None ->
  service.Unmarshal body = (latestTrade :: rest, None) ->
  service.calculatePricesFromTrades (latestTrade :: rest) = (ask, bid, None) ->
  service.GetUSDTRate call now
  = (Some {| service.TradingPair := "USDT/RUB";
             service.AskPrice := ask;
             service.BidPrice := bid;
             service.Timestamp := timestamp_of latestTrade now |}, None).
Proof.
  intros Hreq Hdo Hjson Hcalc. unfold service.GetUSDTRate, timestamp_of.
  rewrite Hreq, Hdo. cbn. rewrite Hjson, Hcalc.
  now destruct (time.Parse_RFC3339 (service.CreatedAt latestTrade))
    as [ts [e|]].
Qed.

Lemma GetUSDTRate_inv (call : service.HTTPCall) (now : Time)
      (rate : service.Rate) (err : option error) :
  service.GetUSDTRate call now = (Some rate, err) ->
  err = None /\
  exists body latestTrade rest,
    service.NewRequestErr call = None /\
    service.Do call = service.Response service.StatusOK body None /\
    service.Unmarshal body = (latestTrade :: rest, None) /\
    service.calculatePricesFromTrades (latestTrade :: rest)
    = (service.AskPrice rate, service.BidPrice rate, None) /\
    service.TradingPair rate = "USDT/RUB" /\
    service.Timestamp rate = timestamp_of latestTrade now.
Proof.
  unfold service.GetUSDTRate, timestamp_of.
  destruct (service.NewRequestErr call) as [e|] eqn:Hreq; [ discriminate | ].
  destruct (service.Do call) as [e|code body [e|]] eqn:Hdo;
    try discriminate.
  - destruct (negb (code =? service.StatusOK)%Z); discriminate.
  - destruct (code =? service.StatusOK)%Z eqn:Hcode; cbn; [ | discriminate ].
    apply Z.eqb_eq in Hcode. subst code.
    destruct (service.Unmarshal body) as [trades [e|]] eqn:Hjson;
      [ discriminate | ].
    destruct trades as [|latestTrade rest]; [ discriminate | ].
    destruct (service.calculatePricesFromTrades (latestTrade :: rest))
      as [[ask bid] [e|]] eqn:Hcalc; [ discriminate | ].
    destruct (time.Parse_RFC3339 (service.CreatedAt latestTrade))
      as [ts [e|]] eqn:Htime; intros H; injection H as <- <-;
      (split; [ reflexivity | ]); exists body, latestTrade, rest; cbn;
      repeat split; try assumption; try rewrite Htime; reflexivity.
Qed.

(** [GetUSDTRate] returns a rate or an error, never both, never
    neither. *)
Lemma GetUSDTRate_rate_xor_error (call : service.HTTPCall) (now : Time) :
  (exists rate, service.GetUSDTRate call now = (Some rate, None)) \/
  (exists err, service.GetUSDTRate call now = (None, Some err)).
Proof.
  unfold service.GetUSDTRate.
  destruct (service.NewRequestErr call) as [e|]; [ right; eauto | ].
  destruct (service.Do call) as [e|code body [e|]]; [ right; eauto | | ];
    (destruct (negb (code =? service.StatusOK)%Z); [ right; eauto | ]).
  - right; eauto.
  - destruct (service.Unmarshal body) as [trades [e|]]; [ right; eauto | ].
    destruct trades as [|latestTrade rest]; [ right; eauto | ].
    destruct (service.calculatePricesFromTrades (latestTrade :: rest))
      as [[ask bid] [e|]]; [ right; eauto | ].
    destruct (time.Parse_RFC3339 (service.CreatedAt latestTrade))
      as [ts [e|]]; left; eauto.
Qed.

(** C5.  When the exchange answers with a non-empty list of trades of
    which a price parses, [GetUSDTRate] returns a rate whose timestamp is
    the creation time of the trade at index 0, or, when that string does
    not parse as a time, the current time; it does not fail. *)
Theorem GetUSDTRate_Timestamp (call : service.HTTPCall) (now : Time)
        (body : string) (latestTrade : service.GrinexTrade)
        (rest : list service.GrinexTrade) :
  service.NewRequestErr call = None ->
  service.Do call = service.Response service.StatusOK body None ->
  service.Unmarshal body = (latestTrade :: rest, None) ->
  (exists p, parsed_price (latestTrade :: rest) p) ->
  exists rate,
    service.GetUSDTRate call now = (Some rate, None) /\
    service.Timestamp rate
    = match time.Parse_RFC3339 (service.CreatedAt latestTrade) with
      | (_, Some _) => now
      | (timestamp, None) => timestamp
      end.
Proof.
  intros Hreq Hdo Hjson Hex. apply parsed_price_nonempty in Hex.
  eexists. split.
  - eapply GetUSDTRate_success; try eassumption.
    now apply calculatePricesFromTrades_success.
  - reflexivity.
Qed.

(** C10.  Every rate that [GetUSDTRate] returns has the trading pair
    ["USDT/RUB"], whatever the exchange answered. *)
Theorem GetUSDTRate_TradingPair (call : service.HTTPCall) (now : Time)
        (rate : service.Rate) (err : option error) :
  service.GetUSDTRate call now = (Some rate, err) ->
  service.TradingPair rate = "USDT/RUB".
Proof.
  intros H. apply GetUSDTRate_inv in H.
  destruct H as [_ [body [latestTrade [rest H]]]]. apply H.
Qed.

End ClientClaims.

(** ** The store *)

Lemma created_at_DESC_swo : sort.strict_weak_order database.created_at_DESC.
Proof.
  split; unfold database.created_at_DESC.
  - intros a b H. apply Z.ltb_lt in H. apply Z.ltb_ge. lia.
  - intros a b c Hab Hbc. apply Z.ltb_ge in Hab, Hbc. apply Z.ltb_ge. lia.
Qed.

Lemma ordered_rows_In (rates : list database.RateRecord)
      (tradingPair : string) (row : database.RateRecord) :
  In row (ordered_rows rates tradingPair) <->
  In row rates /\ database.TradingPair row = tradingPair.
Proof.
  unfold ordered_rows. split.
  - intros H.
    apply (Permutation_in _
             (Permutation_sym (insertionSort_Permutation _ _))) in H.
    apply filter_In in H. destruct H as [Hin Hpair].
    split; [ exact Hin | now apply String.eqb_eq ].
  - intros [Hin Hpair].
    apply (Permutation_in _ (insertionSort_Permutation _ _)).
    apply filter_In. split; [ exact Hin | now apply String.eqb_eq ].
Qed.

Lemma QueryRow_latest_no_rows (rates : list database.RateRecord)
      (tradingPair : string) :
  Forall (fun row => database.TradingPair row <> tradingPair) rates ->
  database.QueryRow_latest rates tradingPair = database.NoRows.
Proof.
  intros Hall. unfold database.QueryRow_latest, database.select_latest.
  fold (ordered_rows rates tradingPair).
  destruct (ordered_rows rates tradingPair) as [|row rows] eqn:E;
    [ reflexivity | ].
  assert (Hin : In row (ordered_rows rates tradingPair))
    by (rewrite E; now left).
  apply ordered_rows_In in Hin. destruct Hin as [Hin Hpair].
  rewrite Forall_forall in Hall. now elim (Hall row Hin).
Qed.

Lemma QueryRow_latest_first_row (rates : list database.RateRecord)
      (tradingPair : string) :
  (exists row, In row rates /\ database.TradingPair row = tradingPair) ->
  exists record,
    database.QueryRow_latest rates tradingPair
    = database.FirstRow record None /\
    In record rates /\
    database.TradingPair record = tradingPair /\
    forall row, In row rates -> database.TradingPair row = tradingPair ->
                (database.CreatedAt row <= database.CreatedAt record)%Z.
Proof.
  intros [row0 Hrow0]. apply ordered_rows_In in Hrow0.
  unfold database.QueryRow_latest, database.select_latest.
  fold (ordered_rows rates tradingPair).
  pose proof (insertionSort_StronglySorted database.created_at_DESC
                (filter (database.WHERE_trading_pair tradingPair) rates)
                created_at_DESC_swo) as Hsorted.
  fold (ordered_rows rates tradingPair) in Hsorted.
  destruct (ordered_rows rates tradingPair) as [|record rows] eqn:E;
    [ contradiction | ].
  exists record. cbn.
  assert (Hin : In record (ordered_rows rates tradingPair))
    by (rewrite E; now left).
  apply ordered_rows_In in Hin. destruct Hin as [Hin Hpair].
  repeat split; try assumption.
  intros row Hrow Hrowpair.
  assert (Hrow' : In row (record :: rows)).
  { rewrite <- E. apply ordered_rows_In. now split. }
  pose proof (StronglySorted_head
                (sort.not_after database.created_at_DESC)
                (swo_irrefl _ created_at_DESC_swo)
                row record (record :: rows) Hsorted Hrow') as Hle.
  cbn in Hle. unfold sort.not_after, database.created_at_DESC in Hle.
  now apply Z.ltb_ge in Hle.
Qed.

(** C8.  Against a table with no row for the pair, [GetLatestRate] returns
    no record and the error that names the pair; against a table with a
    row for the pair it returns, without error, a row of the table for
    that pair whose [created_at] no row for the pair exceeds. *)
Theorem GetLatestRate_latest (rates : list database.RateRecord)
        (tradingPair : string) :
  (Forall (fun row => database.TradingPair row <> tradingPair) rates ->
   database.GetLatestRate tradingPair
     (database.QueryRow_latest rates tradingPair)
   = (None, Some ("no rate found for trading pair: " ++ tradingPair))) /\
  ((exists row, In row rates /\ database.TradingPair row = tradingPair) ->
   exists record,
     database.GetLatestRate tradingPair
       (database.QueryRow_latest rates tradingPair)
     = (Some record, None) /\
     In record rates /\
     database.TradingPair record = tradingPair /\
     forall row, In row rates -> database.TradingPair row = tradingPair ->
                 (database.CreatedAt row <= database.CreatedAt record)%Z).
Proof.
  split.
  - intros Hall. now rewrite (QueryRow_latest_no_rows _ _ Hall).
  - intros Hex.
    destruct (QueryRow_latest_first_row _ _ Hex) as [record [Hq Hrec]].
    exists record. rewrite Hq. split; [ reflexivity | exact Hrec ].
Qed.

(** [GetLatestRate] returns a record or an error, never both, never
    neither, whatever the connection answers. *)
Lemma GetLatestRate_record_xor_error (tradingPair : string)
      (answer : database.RowResult database.RateRecord) :
  (exists record,
      database.GetLatestRate tradingPair answer = (Some record, None)) \/
  (exists err, database.GetLatestRate tradingPair answer = (None, Some err)).
Proof.
  unfold database.GetLatestRate.
  destruct answer as [[|msg]| |row [[|msg]|]]; cbn; eauto.
Qed.

(** C9 (as amended).  [SaveRate] leaves [TradingPair], [AskPrice],
    [BidPrice], [Timestamp] and [CreatedAt] of the record as they were.
    When it succeeds, [ID] is the identifier the insertion returned. When
    it fails, [ID] is as it was, unless the identifier had been read and
    closing the result set failed: then the call fails with the error of
    the close and [ID] is that identifier.  The three answers of the
    connection are told apart: a first row closed with an error, a first
    row closed cleanly, and no first row. *)
Theorem SaveRate_frame (record : database.RateRecord)
        (insert : database.RowResult Z) :
  let saved := fst (database.SaveRate record insert) in
  let err := snd (database.SaveRate record insert) in
  database.TradingPair saved = database.TradingPair record /\
  database.AskPrice saved = database.AskPrice record /\
  database.BidPrice saved = database.BidPrice record /\
  database.Timestamp saved = database.Timestamp record /\
  database.CreatedAt saved = database.CreatedAt record /\
  (err = None ->
   exists id, insert = database.FirstRow id None /\ database.ID saved = id) /\
  (err <> None ->
   database.ID saved = database.ID record \/
   exists id closeErr,
     insert = database.FirstRow id (Some closeErr) /\
     database.ID saved = id) /\
  (forall id closeErr,
      insert = database.FirstRow id (Some closeErr) ->
      err = Some ("failed to save rate: " ++ database.Error closeErr) /\
      database.ID saved = id) /\
  (forall id,
      insert = database.FirstRow id None ->
      err = None /\ database.ID saved = id) /\
  ((forall id closeErr, insert <> database.FirstRow id closeErr) ->
   err <> None /\ database.ID saved = database.ID record).
Proof.
  unfold database.SaveRate, Errorf_w.
  destruct insert as [e| |id [e|]]; cbn;
    repeat match goal with |- _ /\ _ => split end;
    try reflexivity.
  all: try (intros H; discriminate H).
  all: try (intros H; now elim H).
  all: try (intros id' e' H; discriminate H).
  all: try (intros id' H; discriminate H).
  all: try (intros _; split; [ discriminate | reflexivity ]).
  all: try (intros _; now left).
  - intros _. right. now exists id, e.
  - intros id' e' H. injection H as <- <-. split; reflexivity.
  - intros H. now elim (H id (Some e)).
  - intros _. now exists id.
  - intros id' H. injection H as <-. split; reflexivity.
  - intros H. now elim (H id None).
Qed.

(** ** The handlers *)

Section HandlerClaims.

Context {strconv_ : strconv.Parser} {sort_ : sort.Sorter}
        {time_ : time.Parser} {json_ : service.JSON}.

(** [GetRates] never dereferences a nil rate. *)
Lemma GetRates_Returns (trades : service.HTTPCall) (now created : Time)
      (insert : database.RowResult Z) :
  server.GetRates trades now created insert <> server.Panics.
Proof.
  unfold server.GetRates.
  destruct (GetUSDTRate_rate_xor_error trades now) as [[rate H]|[err H]];
    rewrite H; [ | discriminate ].
  destruct (database.SaveRate (server.newRateRecord rate created) insert)
    as [record [e|]]; discriminate.
Qed.

(** C3.  When the fetch succeeds and the store write fails, [GetRates]
    returns the error of the write and no response; it returns a response
    only when the fetch and the write have both succeeded, and then
    without error. *)
Theorem GetRates_all_or_nothing (trades : service.HTTPCall)
        (now created : Time) (insert : database.RowResult Z) :
  (forall rate err,
      service.GetUSDTRate trades now = (Some rate, None) ->
      snd (database.SaveRate (server.newRateRecord rate created) insert)
      = Some err ->
      server.GetRates trades now created insert
      = server.Returns
          (None, Some ("failed to save rate to database: " ++ err))) /\
  (forall resp err,
      server.GetRates trades now created insert
      = server.Returns (Some resp, err) ->
      err = None /\
      exists rate,
        service.GetUSDTRate trades now = (Some rate, None) /\
        snd (database.SaveRate (server.newRateRecord rate created) insert)
        = None /\
        resp = server.newGetRatesResp rate).
Proof.
  unfold server.GetRates. split.
  - intros rate err Hfetch Hsave. rewrite Hfetch.
    destruct (database.SaveRate (server.newRateRecord rate created) insert)
      as [record e]. cbn in Hsave. now subst e.
  - intros resp err.
    destruct (GetUSDTRate_rate_xor_error trades now) as [[rate H]|[e H]];
      rewrite H; [ | discriminate ].
    destruct (database.SaveRate (server.newRateRecord rate created) insert)
      as [record [e|]] eqn:Hsave; [ discriminate | ].
    intros Hret. injection Hret as <- <-.
    split; [ reflexivity | ]. exists rate.
    split; [ reflexivity | ]. split; [ now rewrite Hsave | reflexivity ].
Qed.

End HandlerClaims.

(** C1.  [Healthcheck] combines the two probes: a failing store probe
    gives the status unhealthy together with an error, whatever the
    client probe gives; a passing store probe with a failing client probe
    gives the status degraded and no error; two passing probes give the
    status healthy with the fixed message and no error. *)
Theorem Healthcheck_combinator (ping : option error)
        (markets : service.HTTPCall) :
  (forall err,
      database.HealthCheck ping = Some err ->
      server.Healthcheck ping markets
      = (Some {| server.Status := "unhealthy";
                 server.Message := "Database health check failed: " ++ err |},
         Some ("database health check failed: " ++ err))) /\
  (forall err,
      database.HealthCheck ping = None ->
      service.HealthCheck markets = Some err ->
      server.Healthcheck ping markets
      = (Some {| server.Status := "degraded";
                 server.Message := "Grinex API health check failed: " ++ err |},
         None)) /\
  (database.HealthCheck ping = None ->
   service.HealthCheck markets = None ->
   server.Healthcheck ping markets
   = (Some {| server.Status := "healthy";
              server.Message := "Service is healthy" |}, None)).
Proof.
  unfold server.Healthcheck. repeat split.
  - intros err Hdb. now rewrite Hdb.
  - intros err Hdb Hcli. now rewrite Hdb, Hcli.
  - intros Hdb Hcli. now rewrite Hdb, Hcli.
Qed.

(** ** The tests of the repository, evaluated *)

Example TestCalculatePricesFromTrades :
  @service.calculatePricesFromTrades strconv_decimal sort_insertion
    [ trade "81.25" ""; trade "81.20" ""; trade "81.30" "";
      trade "81.15" "" ]
  = (f81_30, f81_15, None).
Proof. vm_compute. reflexivity. Qed.

Example TestCalculatePricesFromTrades_InvalidPrice :
  @service.calculatePricesFromTrades strconv_decimal sort_insertion
    [ trade "invalid" ""; trade "81.25" "" ]
  = (f81_25, f81_25, None).
Proof. vm_compute. reflexivity. Qed.

Example TestGetUSDTRate_Success :
  @service.GetUSDTRate strconv_decimal sort_insertion test_times
    (json_always test_trades) (answered "[...]") 0%Z
  = (Some {| service.TradingPair := "USDT/RUB";
             service.AskPrice := f81_30;
             service.BidPrice := f81_20;
             service.Timestamp := 1753726934000000000%Z |}, None).
Proof. vm_compute. reflexivity. Qed.

Example TestGetUSDTRate_EmptyResponse :
  @service.GetUSDTRate strconv_decimal sort_insertion test_times
    (json_always []) (answered "[]") 0%Z
  = (None, Some "no trades data available").
Proof. vm_compute. reflexivity. Qed.

Example TestGetUSDTRate_HTTPError :
  @service.GetUSDTRate strconv_decimal sort_insertion test_times
    (json_always [])
    {| service.NewRequestErr := None;
       service.Do := service.Response 500 "Internal Server Error" None |} 0%Z
  = (None,
     Some "API request failed with status 500: Internal Server Error").
Proof. vm_compute. reflexivity. Qed.

Example TestGetLatestRate_NoRows :
  database.GetLatestRate "USDT/RUB" (database.QueryFailed database.ErrNoRows)
  = (None, Some "no rate found for trading pair: USDT/RUB").
Proof. reflexivity. Qed.

(** ** The claims at concrete inputs *)

(** C1 at a store that answers and an exchange that answers 500. *)
Lemma Healthcheck_combinator_witness :
  server.Healthcheck None
    {| service.NewRequestErr := None;
       service.Do := service.Response 500 "" None |}
  = (Some {| server.Status := "degraded";
             server.Message :=
               "Grinex API health check failed: "
               ++ "health check failed with status 500" |}, None).
Proof.
  apply (proj1 (proj2 (Healthcheck_combinator None
           {| service.NewRequestErr := None;
              service.Do := service.Response 500 "" None |}))).
  - reflexivity.
  - vm_compute. reflexivity.
Defined.

(** C2 as stated fails on [nan_trades]: a price parses as the number 1,
    the extraction succeeds, and the bid is NaN, so that ask >= bid does
    not hold and the bid is not below the parsed price 1. *)
Lemma calculatePricesFromTrades_NaN_bid :
  (exists p, parsed_price (strconv_ := strconv_decimal) nan_trades p /\
             sort.isNaN p = false) /\
  @service.calculatePricesFromTrades strconv_decimal sort_insertion
    nan_trades = (f1, S754_nan, None) /\
  float64_ge f1 S754_nan = false /\
  float64_le S754_nan f1 = false.
Proof.
  split; [ | split; [ | split ] ].
  - exists f1. split; [ | reflexivity ].
    exists (trade "1" ""). split; [ right; now left | ].
    vm_compute. reflexivity.
  - vm_compute. reflexivity.
  - reflexivity.
  - reflexivity.
Qed.

(** C2 as amended, on the trades of the repository's test. *)
Lemma calculatePricesFromTrades_max_min_witness :
  exists ask bid,
    @service.calculatePricesFromTrades strconv_decimal sort_insertion
      test_trades = (ask, bid, None) /\
    parsed_price (strconv_ := strconv_decimal) test_trades ask /\
    (forall p, parsed_price (strconv_ := strconv_decimal) test_trades p ->
               float64_le p ask = true) /\
    parsed_price (strconv_ := strconv_decimal) test_trades bid /\
    (forall p, parsed_price (strconv_ := strconv_decimal) test_trades p ->
               float64_le bid p = true) /\
    float64_ge ask bid = true.
Proof.
  apply (@calculatePricesFromTrades_max_min strconv_decimal sort_insertion
           test_trades).
  - exists f81_25, (trade "81.25" "2025-07-28T21:22:14+03:00").
    split; [ now left | vm_compute; reflexivity ].
  - intros p [t [Hin Hp]]. cbn in Hin.
    destruct Hin as [<-|[<-|[<-|[]]]]; vm_compute in Hp;
      injection Hp as <-; reflexivity.
Defined.

(** C3 at a fetch that succeeds and an insertion that the connection
    refuses. *)
Lemma GetRates_all_or_nothing_witness :
  @server.GetRates strconv_decimal sort_insertion test_times
    (json_always test_trades) (answered "[...]") 0%Z 1753726935000000000%Z
    (database.QueryFailed (database.OtherError "connection refused"))
  = server.Returns
      (None,
       Some ("failed to save rate to database: "
             ++ "failed to save rate: connection refused")).
Proof.
  apply (proj1 (@GetRates_all_or_nothing strconv_decimal sort_insertion
                  test_times (json_always test_trades) (answered "[...]")
                  0%Z 1753726935000000000%Z
                  (database.QueryFailed
                     (database.OtherError "connection refused")))
               {| service.TradingPair := "USDT/RUB";
                  service.AskPrice := f81_30;
                  service.BidPrice := f81_20;
                  service.Timestamp := 1753726934000000000%Z |}).
  - vm_compute. reflexivity.
  - reflexivity.
Defined.

(** C5 on the trades of the repository's test. *)
Lemma GetUSDTRate_Timestamp_witness :
  exists rate,
    @service.GetUSDTRate strconv_decimal sort_insertion test_times
      (json_always test_trades) (answered "[...]") 0%Z
    = (Some rate, None) /\
    service.Timestamp rate = 1753726934000000000%Z.
Proof.
  apply (@GetUSDTRate_Timestamp strconv_decimal sort_insertion test_times
           (json_always test_trades) (answered "[...]") 0%Z "[...]"
           (trade "81.25" "2025-07-28T21:22:14+03:00")
           [ trade "81.20" "2025-07-28T21:19:53+03:00";
             trade "81.30" "2025-07-28T21:18:00+03:00" ]).
  - reflexivity.
  - reflexivity.
  - reflexivity.
  - exists f81_25, (trade "81.25" "2025-07-28T21:22:14+03:00").
    split; [ now left | vm_compute; reflexivity ].
Defined.

(** C5 when the time of the first trade does not parse: the rate carries
    the current time, here 42. *)
Example GetUSDTRate_Timestamp_fallback :
  @service.GetUSDTRate strconv_decimal sort_insertion test_times
    (json_always [ trade "81.25" "yesterday" ]) (answered "[...]") 42%Z
  = (Some {| service.TradingPair := "USDT/RUB";
             service.AskPrice := f81_25;
             service.BidPrice := f81_25;
             service.Timestamp := 42%Z |}, None).
Proof. vm_compute. reflexivity. Qed.

(** C6 as stated fails on [zero_trades]: swapping the two trades swaps
    the signs of the zero ask and of the zero bid. *)
Lemma calculatePricesFromTrades_zero_signs :
  Permutation zero_trades zero_trades_swapped /\
  @service.calculatePricesFromTrades strconv_decimal sort_insertion
    zero_trades = (S754_zero false, S754_zero true, None) /\
  @service.calculatePricesFromTrades strconv_decimal sort_insertion
    zero_trades_swapped = (S754_zero true, S754_zero false, None) /\
  @service.calculatePricesFromTrades strconv_decimal sort_insertion
    zero_trades
  <> @service.calculatePricesFromTrades strconv_decimal sort_insertion
       zero_trades_swapped.
Proof.
  split; [ apply perm_swap | ].
  split; [ vm_compute; reflexivity | ].
  split; [ vm_compute; reflexivity | ].
  vm_compute. discriminate.
Qed.

(** C6 as amended, on the same trades. *)
Lemma calculatePricesFromTrades_Permutation_witness :
  (None : option error) = None /\
  same_number (S754_zero false) (S754_zero true) /\
  same_number (S754_zero true) (S754_zero false).
Proof.
  apply (@calculatePricesFromTrades_Permutation strconv_decimal
           sort_insertion zero_trades zero_trades_swapped).
  - apply perm_swap.
  - vm_compute. reflexivity.
  - vm_compute. reflexivity.
Defined.

(** With a NaN among the prices the bid is the NaN whatever the order of
    the trades, although Go's [==] does not hold between a NaN and
    itself. *)
Example calculatePricesFromTrades_NaN_swapped :
  @service.calculatePricesFromTrades strconv_decimal sort_insertion
    [ trade "1" ""; trade "NaN" "" ]
  = @service.calculatePricesFromTrades strconv_decimal sort_insertion
      nan_trades /\
  float64_eq S754_nan S754_nan = false.
Proof. split; [ vm_compute; reflexivity | reflexivity ]. Qed.

(** C7 on the trades of [TestCalculatePricesFromTrades_InvalidPrice]. *)
Lemma calculatePricesFromTrades_single_witness :
  @service.calculatePricesFromTrades strconv_decimal sort_insertion
    [ trade "invalid" ""; trade "81.25" "" ]
  = (f81_25, f81_25, None).
Proof.
  apply (@calculatePricesFromTrades_single strconv_decimal sort_insertion
           [ trade "invalid" "" ] [] (trade "81.25" "") f81_25).
  - vm_compute. reflexivity.
  - constructor; [ | constructor ].
    unfold unparseable. vm_compute. discriminate.
  - constructor.
Defined.

(** C8 on a table with three rows for the pair: the newest is returned. *)
Lemma GetLatestRate_latest_witness :
  exists record,
    database.GetLatestRate "USDT/RUB"
      (database.QueryRow_latest test_rates "USDT/RUB")
    = (Some record, None) /\
    In record test_rates /\
    database.TradingPair record = "USDT/RUB" /\
    forall row, In row test_rates ->
                database.TradingPair row = "USDT/RUB" ->
                (database.CreatedAt row <= database.CreatedAt record)%Z.
Proof.
  apply (proj2 (GetLatestRate_latest test_rates "USDT/RUB")).
  exists (row 1 "USDT/RUB" 100). split; [ now left | reflexivity ].
Defined.

Example GetLatestRate_newest :
  database.GetLatestRate "USDT/RUB"
    (database.QueryRow_latest test_rates "USDT/RUB")
  = (Some (row 3 "USDT/RUB" 300), None).
Proof. vm_compute. reflexivity. Qed.

Example GetLatestRate_empty_store :
  database.GetLatestRate "USDT/RUB" (database.QueryRow_latest [] "USDT/RUB")
  = (None, Some "no rate found for trading pair: USDT/RUB").
Proof. reflexivity. Qed.

(** C9 as stated fails when the identifier has been read and closing the
    result set fails: the call fails and [ID] has changed from 0 to 7. *)
Lemma SaveRate_close_error :
  snd (database.SaveRate test_record
         (database.FirstRow 7%Z
            (Some (database.OtherError "close failed"))))
  = Some "failed to save rate: close failed" /\
  database.ID test_record = 0%Z /\
  database.ID
    (fst (database.SaveRate test_record
            (database.FirstRow 7%Z
               (Some (database.OtherError "close failed"))))) = 7%Z.
Proof. repeat split. Qed.

(** C9 as amended, on a successful insertion. *)
Lemma SaveRate_frame_witness :
  exists id,
    database.FirstRow 7%Z None = database.FirstRow id None /\
    database.ID
      (fst (database.SaveRate test_record (database.FirstRow 7%Z None)))
    = id.
Proof.
  apply (proj1 (proj2 (proj2 (proj2 (proj2 (proj2
           (SaveRate_frame test_record (database.FirstRow 7%Z None)))))))).
  reflexivity.
Defined.

(** C10 on the trades of the repository's test. *)
Lemma GetUSDTRate_TradingPair_witness :
  service.TradingPair
    {| service.TradingPair := "USDT/RUB";
       service.AskPrice := f81_30;
       service.BidPrice := f81_20;
       service.Timestamp := 1753726934000000000%Z |}
  = "USDT/RUB".
Proof.
  apply (@GetUSDTRate_TradingPair strconv_decimal sort_insertion test_times
           (json_always test_trades) (answered "[...]") 0%Z _ None).
  vm_compute. reflexivity.
Defined.

(** * Further properties of the code *)

(** ** The extractor, beyond the maximum and the minimum *)

Lemma isNaN_less (a b : float64) :
  sort.isNaN a = true -> sort.isNaN b = false ->
  sort.Float64Slice_Less a b = true.
Proof.
  intros Ha Hb. unfold sort.Float64Slice_Less. rewrite Ha, Hb.
  apply orb_true_r.
Qed.

Section ExtractorMore.

Context {strconv_ : strconv.Parser} {sort_ : sort.Sorter}.

Lemma calculatePricesFromTrades_nil_error
      (trades : list service.GrinexTrade) (ask bid : float64) :
  service.calculatePricesFromTrades trades = (ask, bid, None) ->
  service.parsedPrices trades <> [].
Proof.
  intros H E. destruct trades as [|t rest].
  - rewrite calculatePricesFromTrades_empty in H. discriminate.
  - rewrite calculatePricesFromTrades_no_valid in H;
      [ discriminate | discriminate | exact E ].
Qed.

(** The function reads [trades] only through its emptiness and the
    prices that parse. *)
Lemma calculatePricesFromTrades_ext (trades trades' : list service.GrinexTrade) :
  (trades = [] <-> trades' = []) ->
  service.parsedPrices trades = service.parsedPrices trades' ->
  service.calculatePricesFromTrades trades
  = service.calculatePricesFromTrades trades'.
Proof.
  intros Hnil Hpp. unfold service.calculatePricesFromTrades.
  rewrite <- Hpp.
  destruct trades as [|t rest], trades' as [|t' rest']; try reflexivity.
  - destruct Hnil as [Hnil _]. now specialize (Hnil eq_refl).
  - destruct Hnil as [_ Hnil]. now specialize (Hnil eq_refl).
Qed.

Lemma parsedPrices_map_Price (trades trades' : list service.GrinexTrade) :
  map service.Price trades = map service.Price trades' ->
  service.parsedPrices trades = service.parsedPrices trades'.
Proof.
  revert trades'. induction trades as [|t rest IH]; intros [|t' rest'] H;
    try discriminate; [ reflexivity | ].
  cbn in H. injection H as Hp Hrest. cbn. rewrite Hp, (IH _ Hrest).
  reflexivity.
Qed.

(** X1.  Whenever the extraction succeeds, on any input, the ask and the
    bid are each the parsed price of one of the trades: no value is made
    up, and the zero of the error returns never shows. *)
Theorem calculatePricesFromTrades_results_parsed
        (trades : list service.GrinexTrade) (ask bid : float64) :
  service.calculatePricesFromTrades trades = (ask, bid, None) ->
  parsed_price trades ask /\ parsed_price trades bid.
Proof.
  intros H. pose proof (calculatePricesFromTrades_nil_error _ _ _ H) as Hne.
  rewrite (calculatePricesFromTrades_success _ Hne) in H.
  injection H as <- <-. split; [ now apply head_parsed | now apply last_parsed ].
Qed.

(** X2.  Prices that parse as NaN are not filtered out.  When the
    extraction succeeds, the bid is NaN exactly when some parsed price is
    NaN, and the ask is NaN exactly when every parsed price is. *)
Theorem calculatePricesFromTrades_NaN
        (trades : list service.GrinexTrade) (ask bid : float64) :
  service.calculatePricesFromTrades trades = (ask, bid, None) ->
  (sort.isNaN bid = true <->
   exists p, parsed_price trades p /\ sort.isNaN p = true) /\
  (sort.isNaN ask = true <->
   forall p, parsed_price trades p -> sort.isNaN p = true).
Proof.
  intros H. pose proof (calculatePricesFromTrades_nil_error _ _ _ H) as Hne.
  rewrite (calculatePricesFromTrades_success _ Hne) in H.
  injection H as <- <-.
  pose proof (head_parsed trades Hne) as Hask.
  pose proof (last_parsed trades Hne) as Hbid.
  split; split.
  - intros Hnan. eexists. split; eassumption.
  - intros [p [Hp Hnan]].
    destruct (sort.isNaN (last (sortedPrices trades) float64_zero)) eqn:E;
      [ reflexivity | ].
    pose proof (last_not_greater trades p Hp) as Hle.
    rewrite (isNaN_less _ _ Hnan E) in Hle. discriminate.
  - intros Hnan p Hp. destruct (sort.isNaN p) eqn:E; [ reflexivity | ].
    pose proof (head_not_less trades p Hp) as Hle.
    rewrite (isNaN_less _ _ Hnan E) in Hle. discriminate.
  - intros Hall. now apply Hall.
Qed.

(** X3.  A trade whose price does not parse has no influence: taking it
    out of a list that keeps another trade leaves the ask, the bid and
    the error as they are. *)
Theorem calculatePricesFromTrades_skip
        (before after : list service.GrinexTrade) (t : service.GrinexTrade) :
  unparseable t ->
  (before ++ after)%list <> [] ->
  service.calculatePricesFromTrades (before ++ t :: after)
  = service.calculatePricesFromTrades (before ++ after).
Proof.
  intros Ht Hne. apply calculatePricesFromTrades_ext.
  - split; intros E; [ | now elim Hne ].
    destruct before; discriminate.
  - rewrite !parsedPrices_app. f_equal. cbn. unfold unparseable in Ht.
    destruct (strconv.ParseFloat (service.Price t)) as [q [e|]];
      [ reflexivity | now elim Ht ].
Qed.

(** X4.  The result depends on the [Price] strings of the trades and on
    nothing else in them: not on the volume, the funds, the market, the
    identifiers or the time. *)
Theorem calculatePricesFromTrades_only_Price
        (trades trades' : list service.GrinexTrade) :
  map service.Price trades = map service.Price trades' ->
  service.calculatePricesFromTrades trades
  = service.calculatePricesFromTrades trades'.
Proof.
  intros H. apply calculatePricesFromTrades_ext.
  - destruct trades, trades'; try discriminate; split; intros; congruence.
  - now apply parsedPrices_map_Price.
Qed.

(** X5.  More trades can only widen the spread.  When every trade of
    [trades] is among [trades'], no price of [trades'] parses as NaN and
    the extraction succeeds on [trades], it succeeds on [trades'] with an
    ask not below and a bid not above. *)
Theorem calculatePricesFromTrades_widens
        (trades trades' : list service.GrinexTrade)
        (ask bid ask' bid' : float64) (err' : option error) :
  incl trades trades' ->
  (forall p, parsed_price trades' p -> sort.isNaN p = false) ->
  service.calculatePricesFromTrades trades = (ask, bid, None) ->
  service.calculatePricesFromTrades trades' = (ask', bid', err') ->
  err' = None /\
  float64_le ask ask' = true /\
  float64_le bid' bid = true.
Proof.
  intros Hincl Hnan H H'.
  assert (Hmono : forall p, parsed_price trades p -> parsed_price trades' p).
  { intros p [t [Hin Hp]]. exists t. split; [ now apply Hincl | exact Hp ]. }
  pose proof (calculatePricesFromTrades_nil_error _ _ _ H) as Hne.
  rewrite (calculatePricesFromTrades_success _ Hne) in H.
  injection H as <- <-.
  pose proof (Hmono _ (head_parsed trades Hne)) as Hask.
  pose proof (Hmono _ (last_parsed trades Hne)) as Hbid.
  assert (Hne' : service.parsedPrices trades' <> []).
  { apply parsed_price_nonempty. eexists. exact Hask. }
  rewrite (calculatePricesFromTrades_success _ Hne') in H'.
  injection H' as <- <- <-.
  split; [ reflexivity | ]. split.
  - apply float64_le_rank; auto using head_parsed.
    apply Float64Slice_Less_false_rank. now apply head_not_less.
  - apply float64_le_rank; auto using last_parsed.
    apply Float64Slice_Less_false_rank. now apply last_not_greater.
Qed.

End ExtractorMore.

(** ** The client and the handlers, beyond the claims *)

Section ClientMore.

Context {strconv_ : strconv.Parser} {sort_ : sort.Sorter}
        {time_ : time.Parser} {json_ : service.JSON}.

(** X6.  [GetUSDTRate] returns a rate exactly when it returns no error:
    never a rate together with an error, never nil with nil. *)
Theorem GetUSDTRate_nil_iff (call : service.HTTPCall) (now : Time) :
  (fst (service.GetUSDTRate call now) = None <->
   snd (service.GetUSDTRate call now) <> None) /\
  (fst (service.GetUSDTRate call now) <> None <->
   snd (service.GetUSDTRate call now) = None).
Proof.
  destruct (GetUSDTRate_rate_xor_error call now) as [[rate H]|[err H]];
    rewrite H; cbn; repeat split; intros; congruence.
Qed.

(** X7.  A rate comes back only when the request could be built, the
    exchange answered with status 200, the body was read to its end and
    decoded to a non-empty list of trades; its ask and bid are then what
    [calculatePricesFromTrades] makes of exactly that list. *)
Theorem GetUSDTRate_rate_origin (call : service.HTTPCall) (now : Time)
        (rate : service.Rate) (err : option error) :
  service.GetUSDTRate call now = (Some rate, err) ->
  service.NewRequestErr call = None /\
  exists body trades,
    service.Do call = service.Response 200 body None /\
    service.Unmarshal body = (trades, None) /\
    trades <> [] /\
    service.calculatePricesFromTrades trades
    = (service.AskPrice rate, service.BidPrice rate, None).
Proof.
  intros H. apply GetUSDTRate_inv in H.
  destruct H as [_ [body [t [rest [Hreq [Hdo [Hjson [Hcalc _]]]]]]]].
  split; [ exact Hreq | ]. exists body, (t :: rest).
  repeat split; try assumption. discriminate.
Qed.

(** X8.  The empty-input error of [calculatePricesFromTrades] never
    comes out of [GetUSDTRate]: an empty list of trades is turned away
    before, with an error of its own. *)
Theorem GetUSDTRate_never_empty_input_error
        (call : service.HTTPCall) (now : Time) :
  snd (service.GetUSDTRate call now)
  <> Some ("failed to calculate prices from trades: "
           ++ "no trades to calculate prices from").
Proof.
  unfold service.GetUSDTRate, Errorf_w.
  destruct (service.NewRequestErr call) as [e|]; [ cbn; discriminate | ].
  destruct (service.Do call) as [e|code body [e|]]; [ cbn; discriminate | | ];
    (destruct (negb (code =? service.StatusOK)%Z); [ cbn; discriminate | ]).
  - cbn. discriminate.
  - destruct (service.Unmarshal body) as [trades [e|]]; [ cbn; discriminate | ].
    destruct trades as [|latestTrade rest]; [ cbn; discriminate | ].
    destruct (service.parsedPrices (latestTrade :: rest)) as [|p ps] eqn:E.
    + rewrite calculatePricesFromTrades_no_valid by (discriminate || exact E).
      cbn. discriminate.
    + rewrite calculatePricesFromTrades_success by (rewrite E; discriminate).
      destruct (time.Parse_RFC3339 (service.CreatedAt latestTrade))
        as [ts [e|]]; cbn; discriminate.
Qed.

(** X9.  The clock is read only as a fallback: when the time of the first
    decoded trade parses, the whole result is the same at every reading
    of the clock. *)
Theorem GetUSDTRate_clock_unused (call : service.HTTPCall) (now now' : Time)
        (body : string) (latestTrade : service.GrinexTrade)
        (rest : list service.GrinexTrade) :
  service.Do call = service.Response 200 body None ->
  service.Unmarshal body = (latestTrade :: rest, None) ->
  snd (time.Parse_RFC3339 (service.CreatedAt latestTrade)) = None ->
  service.GetUSDTRate call now = service.GetUSDTRate call now'.
Proof.
  intros Hdo Hjson Htime. unfold service.GetUSDTRate.
  rewrite Hdo. cbn. rewrite Hjson.
  destruct (time.Parse_RFC3339 (service.CreatedAt latestTrade))
    as [ts [e|]]; [ discriminate | reflexivity ].
Qed.

(** X12.  [GetRates] always returns, and returns exactly one of a
    response and an error, whatever the exchange and the store answer. *)
Theorem GetRates_response_xor_error (trades : service.HTTPCall)
        (now created : Time) (insert : database.RowResult Z) :
  (exists resp,
      server.GetRates trades now created insert
      = server.Returns (Some resp, None)) \/
  (exists err,
      server.GetRates trades now created insert
      = server.Returns (None, Some err)).
Proof.
  unfold server.GetRates.
  destruct (GetUSDTRate_rate_xor_error trades now) as [[rate H]|[err H]];
    rewrite H; [ | right; eauto ].
  destruct (database.SaveRate (server.newRateRecord rate created) insert)
    as [record [e|]]; [ right | left ]; eauto.
Qed.

(** X13.  What a response of [GetRates] holds: the pair ["USDT/RUB"]; the
    ask and the bid that [calculatePricesFromTrades] makes of the decoded
    trades; the time of the first trade, or the clock reading when that
    does not parse, split into seconds and nanoseconds without loss.  The
    insertion then returned an identifier and closed without error. *)
Theorem GetRates_response (trades : service.HTTPCall)
        (now created : Time) (insert : database.RowResult Z)
        (resp : server.GetRatesResp) (err : option error) :
  server.GetRates trades now created insert
  = server.Returns (Some resp, err) ->
  server.TradingPair resp = "USDT/RUB" /\
  (exists body latestTrade rest,
      service.Do trades = service.Response 200 body None /\
      service.Unmarshal body = (latestTrade :: rest, None) /\
      service.calculatePricesFromTrades (latestTrade :: rest)
      = (server.AskPrice resp, server.BidPrice resp, None) /\
      (server.Seconds (server.Timestamp_ resp) * 1000000000
       + server.Nanos (server.Timestamp_ resp)
       = timestamp_of latestTrade now)%Z) /\
  (0 <= server.Nanos (server.Timestamp_ resp) < 1000000000)%Z /\
  exists id, insert = database.FirstRow id None.
Proof.
  unfold server.GetRates.
  destruct (GetUSDTRate_rate_xor_error trades now) as [[rate H]|[e H]];
    rewrite H; [ | discriminate ].
  unfold database.SaveRate.
  destruct insert as [e| |id [e|]]; cbn; try discriminate.
  intros Hret. injection Hret as <- <-.
  apply GetUSDTRate_inv in H.
  destruct H as [_ [body [t [rest [_ [Hdo [Hjson [Hcalc [Hpair Hts]]]]]]]]].
  cbn. split; [ exact Hpair | ]. split; [ | split ].
  - exists body, t, rest. repeat split; try assumption.
    rewrite <- Hts. symmetry. rewrite Z.mul_comm. apply Z.div_mod. lia.
  - apply Z.mod_pos_bound. lia.
  - now exists id.
Qed.

End ClientMore.

(** X10.  [Healthcheck] always returns a status payload, also when it
    returns an error; the status is one of three, and the call carries
    an error exactly when the status is unhealthy. *)
Theorem Healthcheck_payload (ping : option error)
        (markets : service.HTTPCall) :
  exists resp,
    fst (server.Healthcheck ping markets) = Some resp /\
    (server.Status resp = "healthy" \/ server.Status resp = "degraded" \/
     server.Status resp = "unhealthy") /\
    (snd (server.Healthcheck ping markets) <> None <->
     server.Status resp = "unhealthy").
Proof.
  unfold server.Healthcheck, database.HealthCheck.
  destruct ping as [e|].
  - eexists. split; [ reflexivity | ]. cbn.
    split; [ right; right; reflexivity | ].
    split; [ reflexivity | discriminate ].
  - destruct (service.HealthCheck markets) as [e|]; eexists;
      (split; [ reflexivity | ]); cbn.
    + split; [ right; left; reflexivity | ].
      split; [ intros H; now elim H | discriminate ].
    + split; [ left; reflexivity | ].
      split; [ intros H; now elim H | discriminate ].
Qed.

(** X11.  The status is healthy exactly when the ping of the database
    succeeds, the request to the exchange can be built, and the exchange
    answers it with status 200; the body of the answer plays no part. *)
Theorem Healthcheck_healthy_iff (ping : option error)
        (markets : service.HTTPCall) :
  (exists message,
      fst (server.Healthcheck ping markets)
      = Some {| server.Status := "healthy"; server.Message := message |}) <->
  ping = None /\
  service.NewRequestErr markets = None /\
  exists body readErr,
    service.Do markets = service.Response 200 body readErr.
Proof.
  unfold server.Healthcheck, database.HealthCheck, service.HealthCheck.
  destruct ping as [e|]; cbn.
  - split; [ intros [m H]; discriminate | intros [H _]; discriminate ].
  - destruct (service.NewRequestErr markets) as [e|]; cbn.
    + split; [ intros [m H]; discriminate | intros [_ [H _]]; discriminate ].
    + destruct (service.Do markets) as [e|code body readErr]; cbn.
      * split; [ intros [m H]; discriminate | ].
        intros [_ [_ [b [r H]]]]. discriminate.
      * destruct (code =? service.StatusOK)%Z eqn:Hcode; cbn.
        -- apply Z.eqb_eq in Hcode. subst code. split; [ | eauto ].
           intros _. repeat split. now exists body, readErr.
        -- apply Z.eqb_neq in Hcode.
           split; [ intros [m H]; discriminate | ].
           intros [_ [_ [b [r H]]]]. injection H as H _ _. now elim Hcode.
Qed.

(** ** The store, beyond the claims *)

Lemma scanRows_records (rows : list (database.RateRecord + database.sqlError))
      (acc records : list database.RateRecord) :
  database.scanRows rows acc = (records, None) ->
  exists l, rows = map inl l /\ records = (acc ++ l)%list.
Proof.
  revert acc. induction rows as [|[record|err] rest IH]; intros acc H; cbn in H.
  - injection H as <-. exists []. now rewrite app_nil_r.
  - destruct (IH _ H) as [l [-> ->]]. exists (record :: l).
    split; [ reflexivity | now rewrite <- app_assoc ].
  - discriminate.
Qed.

Lemma scanRows_map_inl (l acc : list database.RateRecord) :
  database.scanRows (map inl l) acc = ((acc ++ l)%list, None).
Proof.
  revert acc. induction l as [|record l IH]; intros acc; cbn.
  - now rewrite app_nil_r.
  - rewrite IH. now rewrite <- app_assoc.
Qed.

Lemma GetRatesByTimeRange_Query_range (rates : list database.RateRecord)
      (tradingPair : string) (start end_ : Time) :
  database.GetRatesByTimeRange tradingPair start end_
    (database.Query_range rates tradingPair start end_)
  = (database.select_range rates tradingPair start end_, None).
Proof.
  unfold database.GetRatesByTimeRange, database.Query_range.
  now rewrite scanRows_map_inl.
Qed.

Lemma WHERE_range_spec (tradingPair : string) (start end_ : Time)
      (row : database.RateRecord) :
  database.WHERE_range tradingPair start end_ row = true <->
  database.TradingPair row = tradingPair /\
  (start <= database.CreatedAt row <= end_)%Z.
Proof.
  unfold database.WHERE_range, database.WHERE_trading_pair.
  rewrite !andb_true_iff, String.eqb_eq, !Z.leb_le. tauto.
Qed.

Lemma select_range_In (rates : list database.RateRecord)
      (tradingPair : string) (start end_ : Time)
      (row : database.RateRecord) :
  In row (database.select_range rates tradingPair start end_) <->
  In row rates /\ database.TradingPair row = tradingPair /\
  (start <= database.CreatedAt row <= end_)%Z.
Proof.
  unfold database.select_range. rewrite <- WHERE_range_spec, <- filter_In.
  split; apply Permutation_in.
  - apply Permutation_sym, insertionSort_Permutation.
  - apply insertionSort_Permutation.
Qed.

(** X14.  Whatever the connection answers, [GetLatestRate] returns either
    the scanned row itself with no error, which it does exactly when a
    first row was read and the result set closed cleanly, or no record
    and an error. *)
Theorem GetLatestRate_row_or_error (tradingPair : string)
        (answer : database.RowResult database.RateRecord) :
  (exists row,
      answer = database.FirstRow row None /\
      database.GetLatestRate tradingPair answer = (Some row, None)) \/
  ((forall row, answer <> database.FirstRow row None) /\
   exists err,
     database.GetLatestRate tradingPair answer = (None, Some err)).
Proof.
  unfold database.GetLatestRate.
  destruct answer as [[|msg]| |row [[|msg]|]]; cbn;
    try (right; split; [ discriminate | eauto ]).
  left. eauto.
Qed.

(** X15.  On a working connection [GetRatesByTimeRange] returns, without
    error, the rows of the pair whose [created_at] lies between [start]
    and [end_], both bounds included: each such row once, no other row,
    the newest first. *)
Theorem GetRatesByTimeRange_rows (rates : list database.RateRecord)
        (tradingPair : string) (start end_ : Time) :
  exists records,
    database.GetRatesByTimeRange tradingPair start end_
      (database.Query_range rates tradingPair start end_)
    = (records, None) /\
    (forall row,
        In row records <->
        In row rates /\ database.TradingPair row = tradingPair /\
        (start <= database.CreatedAt row <= end_)%Z) /\
    Permutation records
      (filter (database.WHERE_range tradingPair start end_) rates) /\
    StronglySorted
      (fun a b => (database.CreatedAt b <= database.CreatedAt a)%Z) records.
Proof.
  exists (database.select_range rates tradingPair start end_).
  split; [ apply GetRatesByTimeRange_Query_range | ]. split; [ | split ].
  - intros row. apply select_range_In.
  - apply Permutation_sym, insertionSort_Permutation.
  - pose proof (insertionSort_StronglySorted database.created_at_DESC
        (filter (database.WHERE_range tradingPair start end_) rates)
        created_at_DESC_swo) as Hs.
    unfold database.select_range.
    induction Hs as [|a l Hl IH Ha]; constructor; [ exact IH | ].
    eapply Forall_impl; [ | exact Ha ]. intros b Hb.
    unfold sort.not_after, database.created_at_DESC in Hb.
    now apply Z.ltb_ge in Hb.
Qed.

(** X16.  A range that holds no row is not an error: when [end_] is
    before [start], or the table has no row for the pair,
    [GetRatesByTimeRange] returns the empty list and no error, where
    [GetLatestRate] reports a missing pair as an error. *)
Theorem GetRatesByTimeRange_empty (rates : list database.RateRecord)
        (tradingPair : string) (start end_ : Time) :
  (end_ < start)%Z \/
  Forall (fun row => database.TradingPair row <> tradingPair) rates ->
  database.GetRatesByTimeRange tradingPair start end_
    (database.Query_range rates tradingPair start end_)
  = ([], None).
Proof.
  intros H. rewrite GetRatesByTimeRange_Query_range.
  destruct (database.select_range rates tradingPair start end_)
    as [|row rows] eqn:E; [ reflexivity | ].
  assert (Hin : In row (database.select_range rates tradingPair start end_))
    by (rewrite E; now left).
  apply select_range_In in Hin. destruct Hin as [Hin [Hpair Hrange]].
  destruct H as [H|H]; [ lia | ].
  rewrite Forall_forall in H. now elim (H row Hin).
Qed.

(** X17.  [GetRatesByTimeRange] returns all the rows or none: on any
    answer of the connection it returns either an error with no record
    at all, also when rows were scanned before the failure, or no error
    with every row of the result set, in the order they came. *)
Theorem GetRatesByTimeRange_all_or_nothing (tradingPair : string)
        (start end_ : Time) (answer : database.RowsResult) :
  (exists err,
      database.GetRatesByTimeRange tradingPair start end_ answer
      = ([], Some err)) \/
  (exists records,
      answer = database.Rows (map inl records) None /\
      database.GetRatesByTimeRange tradingPair start end_ answer
      = (records, None)).
Proof.
  unfold database.GetRatesByTimeRange.
  destruct answer as [err|rows iterErr]; [ left; eauto | ].
  destruct (database.scanRows rows []) as [records [err|]] eqn:E;
    [ left; eauto | ].
  destruct iterErr as [err|]; [ left; eauto | ].
  apply scanRows_records in E. destruct E as [l [-> ->]].
  right. exists l. split; reflexivity.
Qed.

Lemma NoDup_map_inj {A B : Type} (f : A -> B) (l : list A) (a b : A) :
  NoDup (map f l) -> In a l -> In b l -> f a = f b -> a = b.
Proof.
  induction l as [|x l IH]; cbn; intros Hnd Ha Hb Hf; [ contradiction | ].
  inversion Hnd as [|? ? Hx Hl]; subst.
  destruct Ha as [<-|Ha], Hb as [<-|Hb].
  - reflexivity.
  - elim Hx. rewrite Hf. now apply in_map.
  - elim Hx. rewrite <- Hf. now apply in_map.
  - now apply IH.
Qed.

Lemma ORDER_BY_head (selected ordered : list database.RateRecord)
      (row a : database.RateRecord) (rest : list database.RateRecord) :
  ORDER_BY_created_at_DESC selected ordered ->
  ordered = row :: rest ->
  In a selected ->
  In row selected /\ (database.CreatedAt a <= database.CreatedAt row)%Z.
Proof.
  intros [Hperm Hsorted] -> Ha. split.
  - eapply Permutation_in; [ apply Permutation_sym, Hperm | now left ].
  - apply (Permutation_in _ Hperm) in Ha. destruct Ha as [<-|Ha]; [ lia | ].
    apply StronglySorted_inv in Hsorted. destruct Hsorted as [_ Hall].
    rewrite Forall_forall in Hall. now apply Hall.
Qed.

(** The two modelled queries return rows in one of the orders that
    [ORDER BY created_at DESC] allows. *)
Lemma ordered_rows_ORDER_BY (rates : list database.RateRecord)
      (tradingPair : string) :
  ORDER_BY_created_at_DESC
    (filter (database.WHERE_trading_pair tradingPair) rates)
    (ordered_rows rates tradingPair).
Proof.
  split; [ apply insertionSort_Permutation | ].
  pose proof (insertionSort_StronglySorted database.created_at_DESC
      (filter (database.WHERE_trading_pair tradingPair) rates)
      created_at_DESC_swo) as Hs.
  unfold ordered_rows.
  induction Hs as [|a l Hl IH Ha]; constructor; [ exact IH | ].
  eapply Forall_impl; [ | exact Ha ]. intros b Hb.
  unfold sort.not_after, database.created_at_DESC in Hb.
  now apply Z.ltb_ge in Hb.
Qed.

Lemma select_range_ORDER_BY (rates : list database.RateRecord)
      (tradingPair : string) (start end_ : Time) :
  ORDER_BY_created_at_DESC
    (filter (database.WHERE_range tradingPair start end_) rates)
    (database.select_range rates tradingPair start end_).
Proof.
  split; [ apply insertionSort_Permutation | ].
  pose proof (insertionSort_StronglySorted database.created_at_DESC
      (filter (database.WHERE_range tradingPair start end_) rates)
      created_at_DESC_swo) as Hs.
  unfold database.select_range.
  induction Hs as [|a l Hl IH Ha]; constructor; [ exact IH | ].
  eapply Forall_impl; [ | exact Ha ]. intros b Hb.
  unfold sort.not_after, database.created_at_DESC in Hb.
  now apply Z.ltb_ge in Hb.
Qed.

Lemma QueryRow_latest_LIMIT_1 (rates : list database.RateRecord)
      (tradingPair : string) :
  database.QueryRow_latest rates tradingPair
  = LIMIT_1 (ordered_rows rates tradingPair).
Proof.
  unfold database.QueryRow_latest, database.select_latest, LIMIT_1.
  fold (ordered_rows rates tradingPair).
  now destruct (ordered_rows rates tradingPair).
Qed.

(** X18.  The two queries agree, in whatever order the database returns
    rows: when the rows of the pair have pairwise different [created_at]
    and the range covers them all, the record [GetLatestRate] returns is
    the first record [GetRatesByTimeRange] returns, and it returns none
    exactly when the range result is empty.  [latest] and [range] are any
    two results of the [ORDER BY] clauses of the two queries. *)
Theorem GetLatestRate_head_of_range (rates : list database.RateRecord)
        (tradingPair : string) (start end_ : Time)
        (latest range : list database.RateRecord) :
  ORDER_BY_created_at_DESC
    (filter (database.WHERE_trading_pair tradingPair) rates) latest ->
  ORDER_BY_created_at_DESC
    (filter (database.WHERE_range tradingPair start end_) rates) range ->
  NoDup (map database.CreatedAt
             (filter (database.WHERE_trading_pair tradingPair) rates)) ->
  (forall row, In row rates -> database.TradingPair row = tradingPair ->
               (start <= database.CreatedAt row <= end_)%Z) ->
  fst (database.GetLatestRate tradingPair (LIMIT_1 latest))
  = hd_error
      (fst (database.GetRatesByTimeRange tradingPair start end_
              (database.Rows (map inl range) None))).
Proof.
  intros Hlatest Hrange Hdistinct Hcover.
  assert (Hfilter :
            filter (database.WHERE_range tradingPair start end_) rates
            = filter (database.WHERE_trading_pair tradingPair) rates).
  { apply filter_ext_in. intros row Hin. unfold database.WHERE_range.
    destruct (database.WHERE_trading_pair tradingPair row) eqn:Hp;
      [ | reflexivity ].
    unfold database.WHERE_trading_pair in Hp. apply String.eqb_eq in Hp.
    specialize (Hcover row Hin Hp). cbn.
    apply andb_true_iff. split; apply Z.leb_le; lia. }
  rewrite Hfilter in Hrange.
  unfold database.GetRatesByTimeRange. rewrite scanRows_map_inl. cbn.
  destruct latest as [|h1 t1], range as [|h2 t2]; cbn.
  - reflexivity.
  - destruct Hlatest as [Hp1 _], Hrange as [Hp2 _].
    apply Permutation_sym, Permutation_nil in Hp1. rewrite Hp1 in Hp2.
    apply Permutation_nil in Hp2. discriminate.
  - destruct Hlatest as [Hp1 _], Hrange as [Hp2 _].
    apply Permutation_sym, Permutation_nil in Hp2. rewrite Hp2 in Hp1.
    apply Permutation_nil in Hp1. discriminate.
  - f_equal.
    destruct (ORDER_BY_head _ _ h1 h1 t1 Hlatest eq_refl) as [Hin1 _].
    { eapply Permutation_in;
        [ apply Permutation_sym; apply Hlatest | now left ]. }
    destruct (ORDER_BY_head _ _ h2 h1 t2 Hrange eq_refl Hin1) as [Hin2 Hle12].
    destruct (ORDER_BY_head _ _ h1 h2 t1 Hlatest eq_refl Hin2) as [_ Hle21].
    apply (NoDup_map_inj database.CreatedAt _ h1 h2 Hdistinct Hin1 Hin2).
    lia.
Qed.

(** ** The configuration *)

Lemma string_app_assoc (a b c : string) : (a ++ b) ++ c = a ++ (b ++ c).
Proof.
  induction a as [|x a IH]; cbn; [ reflexivity | now rewrite IH ].
Qed.

Lemma string_app_length (a b : string) :
  String.length (a ++ b) = (String.length a + String.length b)%nat.
Proof.
  induction a as [|x a IH]; cbn; [ reflexivity | now rewrite IH ].
Qed.

Section ConfigMore.

Context {conv_ : config.Conv}.

(** X19.  The command-line flags never reach the configuration.  When
    [Load] returns, the configuration is the one read from the
    environment with the defaults written in [Load], and it is the same
    for any other values of the flags. *)
Theorem Load_ignores_flags (Getenv : string -> string)
        (f : config.Flags) (p p' : config.Process) (cfg : config.Config) :
  config.Load Getenv (Some f) p = config.Returns (cfg, p') ->
  cfg = config.newConfig Getenv /\
  forall f', exists p'',
      config.Load Getenv (Some f') p = config.Returns (cfg, p'').
Proof.
  unfold config.Load, config.loadFromFlags. cbn.
  destruct (config.flagsDefined p); [ discriminate | ].
  intros H. injection H as <- <-. split; [ reflexivity | ].
  intros f'. eexists. reflexivity.
Qed.

(** X20.  [Load] can run once in a process: after a call that returned,
    any further call panics, since it defines its flags again. *)
Theorem Load_twice_panics (Getenv Getenv' : string -> string)
        (args args' : option config.Flags) (p p' : config.Process)
        (cfg : config.Config) :
  config.Load Getenv args p = config.Returns (cfg, p') ->
  config.Load Getenv' args' p' = config.Panics.
Proof.
  unfold config.Load, config.loadFromFlags. cbn.
  destruct (config.flagsDefined p); [ discriminate | ].
  destruct args as [f|]; [ | discriminate ].
  intros H. injection H as <- <-. reflexivity.
Qed.

End ConfigMore.

(** X21.  [GetDSN] does not quote its values: a value with a space in it
    runs into the next key, so that two different configurations have
    the same connection string. *)
Theorem GetDSN_not_quoted (host user sslmode w x d : string) (port : Z) :
  let c1 := {| config.Host := host; config.Port := port;
               config.User := user;
               config.Password := w ++ " dbname=" ++ x;
               config.DBName := d; config.SSLMode := sslmode |} in
  let c2 := {| config.Host := host; config.Port := port;
               config.User := user;
               config.Password := w;
               config.DBName := x ++ " dbname=" ++ d;
               config.SSLMode := sslmode |} in
  config.GetDSN c1 = config.GetDSN c2 /\ c1 <> c2.
Proof.
  cbv zeta. split.
  - unfold config.GetDSN.
    cbn [config.Host config.Port config.User config.Password config.DBName
         config.SSLMode].
    rewrite !string_app_assoc. reflexivity.
  - intros H. injection H as Hw _.
    apply (f_equal String.length) in Hw.
    rewrite !string_app_length in Hw. cbn in Hw. lia.
Qed.

(** ** The further properties at concrete inputs *)

Example TestLoadWithEnvVars :
  exists p,
    @config.Load test_conv test_env (Some no_flags) fresh_process
    = config.Returns (test_config, p).
Proof. eexists. vm_compute. reflexivity. Qed.

Example TestGetDSN :
  config.GetDSN
    {| config.Host := "localhost"; config.Port := 5432;
       config.User := "postgres"; config.Password := "password";
       config.DBName := "testdb"; config.SSLMode := "disable" |}
  = "host=localhost port=5432 user=postgres password=password "
    ++ "dbname=testdb sslmode=disable".
Proof. vm_compute. reflexivity. Qed.

(** X1 on the trades of the repository's test. *)
Lemma calculatePricesFromTrades_results_parsed_witness :
  parsed_price (strconv_ := strconv_decimal) test_trades f81_30 /\
  parsed_price (strconv_ := strconv_decimal) test_trades f81_20.
Proof.
  apply (@calculatePricesFromTrades_results_parsed strconv_decimal
           sort_insertion test_trades f81_30 f81_20).
  vm_compute. reflexivity.
Defined.

(** X2 on [nan_trades]: the bid is NaN, the ask is not. *)
Lemma calculatePricesFromTrades_NaN_witness :
  (sort.isNaN S754_nan = true <->
   exists p, parsed_price (strconv_ := strconv_decimal) nan_trades p /\
             sort.isNaN p = true) /\
  (sort.isNaN f1 = true <->
   forall p, parsed_price (strconv_ := strconv_decimal) nan_trades p ->
             sort.isNaN p = true).
Proof.
  apply (@calculatePricesFromTrades_NaN strconv_decimal sort_insertion
           nan_trades f1 S754_nan).
  vm_compute. reflexivity.
Defined.

(** X3 on the trades of [TestCalculatePricesFromTrades_InvalidPrice]. *)
Lemma calculatePricesFromTrades_skip_witness :
  @service.calculatePricesFromTrades strconv_decimal sort_insertion
    [ trade "invalid" ""; trade "81.25" "" ]
  = @service.calculatePricesFromTrades strconv_decimal sort_insertion
      [ trade "81.25" "" ].
Proof.
  apply (@calculatePricesFromTrades_skip strconv_decimal sort_insertion
           [] [ trade "81.25" "" ] (trade "invalid" "")).
  - unfold unparseable. vm_compute. discriminate.
  - discriminate.
Defined.

(** X4 on a trade with and without its other fields. *)
Lemma calculatePricesFromTrades_only_Price_witness :
  @service.calculatePricesFromTrades strconv_decimal sort_insertion
    [ full_trade ]
  = @service.calculatePricesFromTrades strconv_decimal sort_insertion
      [ trade "81.25" "" ].
Proof.
  apply (@calculatePricesFromTrades_only_Price strconv_decimal
           sort_insertion [ full_trade ] [ trade "81.25" "" ]).
  reflexivity.
Defined.

(** X5 from the first trade of the repository's test to all three. *)
Lemma calculatePricesFromTrades_widens_witness :
  (None : option error) = None /\
  float64_le f81_25 f81_30 = true /\
  float64_le f81_20 f81_25 = true.
Proof.
  apply (@calculatePricesFromTrades_widens strconv_decimal sort_insertion
           [ trade "81.25" "2025-07-28T21:22:14+03:00" ] test_trades
           f81_25 f81_25 f81_30 f81_20 None).
  - intros t [<-|[]]. now left.
  - intros p [t [Hin Hp]]. cbn in Hin.
    destruct Hin as [<-|[<-|[<-|[]]]]; vm_compute in Hp;
      injection Hp as <-; reflexivity.
  - vm_compute. reflexivity.
  - vm_compute. reflexivity.
Defined.

(** X7 on the trades of the repository's test. *)
Lemma GetUSDTRate_rate_origin_witness :
  service.NewRequestErr (answered "[...]") = None /\
  exists body trades,
    service.Do (answered "[...]") = service.Response 200 body None /\
    service.Unmarshal (JSON := json_always test_trades) body
    = (trades, None) /\
    trades <> [] /\
    @service.calculatePricesFromTrades strconv_decimal sort_insertion trades
    = (f81_30, f81_20, None).
Proof.
  apply (@GetUSDTRate_rate_origin strconv_decimal sort_insertion test_times
           (json_always test_trades) (answered "[...]") 0%Z
           {| service.TradingPair := "USDT/RUB";
              service.AskPrice := f81_30;
              service.BidPrice := f81_20;
              service.Timestamp := 1753726934000000000%Z |} None).
  vm_compute. reflexivity.
Defined.

(** X9 on the trades of the repository's test, at two clock readings. *)
Lemma GetUSDTRate_clock_unused_witness :
  @service.GetUSDTRate strconv_decimal sort_insertion test_times
    (json_always test_trades) (answered "[...]") 0%Z
  = @service.GetUSDTRate strconv_decimal sort_insertion test_times
      (json_always test_trades) (answered "[...]") 1753727000000000000%Z.
Proof.
  apply (@GetUSDTRate_clock_unused strconv_decimal sort_insertion test_times
           (json_always test_trades) (answered "[...]") 0%Z
           1753727000000000000%Z "[...]"
           (trade "81.25" "2025-07-28T21:22:14+03:00")
           [ trade "81.20" "2025-07-28T21:19:53+03:00";
             trade "81.30" "2025-07-28T21:18:00+03:00" ]).
  - reflexivity.
  - reflexivity.
  - reflexivity.
Defined.

(** X13 on a fetch and an insertion that both succeed. *)
Lemma GetRates_response_witness :
  server.TradingPair
    (server.newGetRatesResp
       {| service.TradingPair := "USDT/RUB";
          service.AskPrice := f81_30;
          service.BidPrice := f81_20;
          service.Timestamp := 1753726934000000000%Z |})
  = "USDT/RUB".
Proof.
  apply (@GetRates_response strconv_decimal sort_insertion test_times
           (json_always test_trades) (answered "[...]") 0%Z
           1753726935000000000%Z (database.FirstRow 7%Z None)
           _ None).
  vm_compute. reflexivity.
Defined.

(** X16 on a range whose end is before its start. *)
Lemma GetRatesByTimeRange_empty_witness :
  database.GetRatesByTimeRange "USDT/RUB" 500%Z 100%Z
    (database.Query_range test_rates "USDT/RUB" 500%Z 100%Z)
  = ([], None).
Proof.
  apply (GetRatesByTimeRange_empty test_rates "USDT/RUB" 500%Z 100%Z).
  left. reflexivity.
Defined.

Example GetRatesByTimeRange_inclusive :
  database.GetRatesByTimeRange "USDT/RUB" 200%Z 300%Z
    (database.Query_range test_rates "USDT/RUB" 200%Z 300%Z)
  = ([ row 3 "USDT/RUB" 300; row 4 "USDT/RUB" 200 ], None).
Proof. vm_compute. reflexivity. Qed.

Example GetRatesByTimeRange_scan_failure :
  database.GetRatesByTimeRange "USDT/RUB" 200%Z 300%Z
    (database.Rows
       [ inl (row 3 "USDT/RUB" 300);
         inr (database.OtherError "converting NULL to float64") ] None)
  = ([], Some "failed to scan rate record: converting NULL to float64").
Proof. reflexivity. Qed.

(** X18 on a range that covers the whole table, with the rows ordered as
    the two modelled queries order them. *)
Lemma GetLatestRate_head_of_range_witness :
  fst (database.GetLatestRate "USDT/RUB"
         (LIMIT_1 (ordered_rows test_rates "USDT/RUB")))
  = hd_error
      (fst (database.GetRatesByTimeRange "USDT/RUB" 0%Z 1000%Z
              (database.Rows
                 (map inl (database.select_range test_rates "USDT/RUB"
                             0%Z 1000%Z)) None))).
Proof.
  apply (GetLatestRate_head_of_range test_rates "USDT/RUB" 0%Z 1000%Z).
  - apply ordered_rows_ORDER_BY.
  - apply select_range_ORDER_BY.
  - vm_compute. repeat constructor; cbn; intuition discriminate.
  - intros r Hin _. cbn in Hin.
    destruct Hin as [<-|[<-|[<-|[<-|[]]]]]; cbn; split; discriminate.
Defined.

(** X19 and X20 on the environment of [TestLoadWithEnvVars]: flags that
    all differ from their defaults leave the configuration of the test
    as it is, and a second call panics. *)
Lemma Load_ignores_flags_witness :
  test_config = @config.newConfig test_conv test_env /\
  forall f', exists p'',
      @config.Load test_conv test_env (Some f') fresh_process
      = config.Returns (test_config, p'').
Proof.
  apply (@Load_ignores_flags test_conv test_env test_flags fresh_process
           (let p := {| config.viper :=
                          config.loadFromEnv
                            (config.setDefaults
                               (config.viper fresh_process));
                        config.flagsDefined := false |} in
            match config.loadFromFlags (Some test_flags) p with
            | config.Returns p' => p'
            | _ => fresh_process
            end)
           test_config).
  vm_compute. reflexivity.
Defined.

Lemma Load_twice_panics_witness :
  @config.Load test_conv test_env (Some no_flags)
    {| config.viper :=
         config.loadFromEnv (config.setDefaults
                               (config.viper fresh_process));
       config.flagsDefined := true |}
  = config.Panics.
Proof.
  apply (@Load_twice_panics test_conv test_env test_env (Some no_flags)
           (Some no_flags) fresh_process _ test_config).
  vm_compute. reflexivity.
Defined.
